(** * autogain.py: dynamic microphone gain control

    A shallow embedding of [autogain.py] and the properties of its
    gain controller, no-signal detection, RMS meter and calibration, of
    the capture and gain-reading helpers, the interactive prompts and the
    test mode.

    Modelling conventions.
    - Python floats are modelled as real numbers [R]: comparisons, [min],
      [max], [+], [-], [*], [/], [sqrt] and [**] are the exact operations.
      Rounding error, NaN and infinities are outside the model.
    - Python integers are [Z]; text is an ASCII [string].
    - The module-level constants that configure the program are the fields
      of the record [config]; [default_config] holds the values written in
      the source.
    - External processes (ffmpeg, amixer, the no-signal action) and
      [time.sleep] are modelled by the results they hand back ([cycle_io])
      and by the trace of [event]s the program emits.  Output of
      [debug_print] and [print] is not modelled.
    - The infinite [while True] loop is modelled by its finite prefixes:
      one [cycle_io] per iteration. *)

From Stdlib Require Import Reals Lra Lia ZArith Bool Ascii String List Permutation.
From Stdlib Require Strings.Byte.
Import ListNotations.

Open Scope R_scope.

(** ** Default configuration *)

Record config : Type := {
  MICROPHONE_NAME : string;
  MIN_GAIN_DB : Z;
  MAX_GAIN_DB : Z;
  GAIN_STEP_DB : Z;
  NOISE_THRESHOLD_HIGH : R;
  NOISE_THRESHOLD_LOW : R;
  NO_SIGNAL_THRESHOLD : R;
  NO_SIGNAL_COUNT_THRESHOLD : Z;
  SAMPLING_RATE : Z;
  LOWCUT : Z;
  HIGHCUT : Z;
  FILTER_ORDER : Z;
  SLEEP_SECONDS : Z
}.

Definition default_config : config := {|
  MICROPHONE_NAME := "Line In 1 Gain";
  MIN_GAIN_DB := 30;
  MAX_GAIN_DB := 38;
  GAIN_STEP_DB := 3;
  NOISE_THRESHOLD_HIGH := 1 / 100;
  NOISE_THRESHOLD_LOW := 1 / 1000;
  NO_SIGNAL_THRESHOLD := 1 / 1000000;
  NO_SIGNAL_COUNT_THRESHOLD := 3;
  SAMPLING_RATE := 48000;
  LOWCUT := 2000;
  HIGHCUT := 8000;
  FILTER_ORDER := 4;
  SLEEP_SECONDS := 10
|}.

(** [REFERENCE_PRESSURE = 20e-6] *)
Definition REFERENCE_PRESSURE : R := 20 / 1000000.

Definition DEFAULT_SNR : R := 80.
Definition DEFAULT_SELF_NOISE : R := 14.
Definition DEFAULT_CLIPPING : R := 120.
Definition DEFAULT_SENSITIVITY : R := -28.

(** [10 ** x] on floats. *)
Definition pow10 (x : R) : R := Rpower 10 x.

Definition def_full_scale : R :=
  REFERENCE_PRESSURE *
  pow10 (DEFAULT_CLIPPING / 20) *
  pow10 (DEFAULT_SENSITIVITY / 20).

(** ** Python number conversions *)

(** [int(x)] on a float: truncation toward zero. *)
Definition py_int (x : R) : Z :=
  if Rle_dec 0 x then Int_part x else (- Int_part (- x))%Z.

(** [round(x)] on a float: nearest integer, ties to the even one. *)
Definition py_round (x : R) : Z :=
  let f := Int_part x in
  let d := x - IZR f in
  if Rlt_dec d (1 / 2) then f
  else if Rlt_dec (1 / 2) d then (f + 1)%Z
  else if Z.even f then f else (f + 1)%Z.

(** The number printed by [f"{x:.7f}"]: [x] rounded to seven decimals. *)
Definition format_7f (x : R) : R :=
  IZR (py_round (x * 10000000)) / 10000000.

(** ** Events and external results *)

Inductive event : Type :=
| Amixer_sset (mic_name : string) (gain : Z)
    (* subprocess.check_call(['amixer', 'sset', mic_name, f'{gain}dB']) *)
| No_signal_action
    (* subprocess.call(NO_SIGNAL_ACTION, shell=True) *)
| Sleep (seconds : Z).
    (* time.sleep(seconds) *)

Definition is_sset (e : event) : bool :=
  match e with Amixer_sset _ _ => true | _ => false end.

Definition is_action (e : event) : bool :=
  match e with No_signal_action => true | _ => false end.

(** What the outside world hands back during one iteration of the loop. *)
Record cycle_io : Type := {
  captured : option (list R);   (* capture_audio(RTSP_URL) *)
  amixer_sget : option R;       (* get_gain_db(MICROPHONE_NAME) *)
  amixer_sset_ok : bool         (* amixer sset exits with status 0 *)
}.

(** ** Audio and gain helpers *)

Definition set_gain_db (cfg : config) (mic_name : string) (gain_db : R)
    (amixer_ok : bool) : bool * list event :=
  let gain_db := Rmax (Rmin gain_db (IZR (MAX_GAIN_DB cfg)))
                      (IZR (MIN_GAIN_DB cfg)) in
  (amixer_ok, [Amixer_sset mic_name (py_int gain_db)]).

(** [np.mean] *)
Definition mean (a : list R) : R :=
  fold_right Rplus 0 a / INR (length a).

Definition measure_rms (audio : list R) : R :=
  if (0 <? length audio)%nat
  then sqrt (mean (map (fun x => x ^ 2) audio))
  else 0.

(** [scipy.signal.butter] with [btype='band'] and [fs] given rejects the
    critical frequencies with a [ValueError] unless
    [0 < lowcut < highcut < fs / 2] (stated here for a positive sample
    rate); otherwise it designs the filter. *)
Definition butter_accepts (lowcut highcut fs : Z) : bool :=
  ((0 <? lowcut) && (lowcut <? highcut) && (2 * highcut <? fs))%Z.

(** Result of running loop iterations: either the loop goes on with the
    new [no_signal_count], or an exception leaves [dynamic_gain_control]. *)
Inductive outcome : Type :=
| Next (no_signal_count : Z) (trace : list event)
| Raised (trace : list event).

Definition trace_of (o : outcome) : list event :=
  match o with Next _ tr => tr | Raised tr => tr end.

(** The numeric part of [scipy.signal]: the type of second-order sections,
    the Butterworth design for accepted frequencies, and [sosfilt]. *)
Record scipy_signal : Type := {
  sos : Type;
  butter_design : Z -> Z -> Z -> Z -> sos;
  sosfilt : sos -> list R -> list R
}.

Section Filter.

Variable scipy : scipy_signal.

Definition butter (order lowcut highcut fs : Z) : option (sos scipy) :=
  if butter_accepts lowcut highcut fs
  then Some (butter_design scipy order lowcut highcut fs)
  else None.

(** [None] stands for the [ValueError] raised by [butter]. *)
Definition bandpass_filter (audio : list R) (lowcut highcut fs order : Z)
    : option (list R) :=
  match butter order lowcut highcut fs with
  | Some s => Some (sosfilt scipy s audio)
  | None => None
  end.

(** ** Dynamic gain control loop *)

(** Lines 275-283: no-signal detection. *)
Definition no_signal_detection (cfg : config) (rms : R)
    (no_signal_count : Z) : Z * list event :=
  if Rlt_dec rms (NO_SIGNAL_THRESHOLD cfg) then
    let no_signal_count := (no_signal_count + 1)%Z in
    (no_signal_count,
     if (no_signal_count >=? NO_SIGNAL_COUNT_THRESHOLD cfg)%Z
     then [No_signal_action] else [])
  else (0%Z, []).

(** Lines 291-294: the value passed to [set_gain_db], if any. *)
Definition gain_request (cfg : config) (rms : R) (current_gain : R)
    : option R :=
  if Rgt_dec rms (NOISE_THRESHOLD_HIGH cfg)
  then Some (current_gain - IZR (GAIN_STEP_DB cfg))
  else if Rlt_dec rms (NOISE_THRESHOLD_LOW cfg)
  then Some (current_gain + IZR (GAIN_STEP_DB cfg))
  else None.

(** Lines 275-296: the iteration once [rms] has been measured. *)
Definition control_step (cfg : config) (rms : R) (no_signal_count : Z)
    (io : cycle_io) : outcome :=
  let '(no_signal_count, ev_signal) :=
    no_signal_detection cfg rms no_signal_count in
  match amixer_sget io with
  | None => Next no_signal_count (ev_signal ++ [Sleep (SLEEP_SECONDS cfg)])
  | Some current_gain =>
      let ev_gain :=
        match gain_request cfg rms current_gain with
        | Some g =>
            snd (set_gain_db cfg (MICROPHONE_NAME cfg) g (amixer_sset_ok io))
        | None => []
        end in
      Next no_signal_count
           (ev_signal ++ ev_gain ++ [Sleep (SLEEP_SECONDS cfg)])
  end.

(** Lines 265-296: one iteration of [while True]. *)
Definition loop_body (cfg : config) (no_signal_count : Z) (io : cycle_io)
    : outcome :=
  match captured io with
  | None => Next no_signal_count [Sleep (SLEEP_SECONDS cfg)]
  | Some audio =>
      if (length audio =? 0)%nat
      then Next no_signal_count [Sleep (SLEEP_SECONDS cfg)]
      else
        match bandpass_filter audio (LOWCUT cfg) (HIGHCUT cfg)
                              (SAMPLING_RATE cfg) (FILTER_ORDER cfg) with
        | None => Raised []
        | Some filtered =>
            control_step cfg (measure_rms filtered) no_signal_count io
        end
  end.

(** The loop, run over the iterations described by [ios]. *)
Fixpoint while_true (cfg : config) (no_signal_count : Z)
    (ios : list cycle_io) : outcome :=
  match ios with
  | [] => Next no_signal_count []
  | io :: ios' =>
      match loop_body cfg no_signal_count io with
      | Raised tr => Raised tr
      | Next c tr =>
          match while_true cfg c ios' with
          | Next c' tr' => Next c' (tr ++ tr')
          | Raised tr' => Raised (tr ++ tr')
          end
      end
  end.

(** [startup_ok] is the exit status of the initial [amixer sset]. *)
Definition dynamic_gain_control (cfg : config) (startup_ok : bool)
    (ios : list cycle_io) : outcome :=
  let ev_init :=
    snd (set_gain_db cfg (MICROPHONE_NAME cfg)
           (IZR ((MIN_GAIN_DB cfg + MAX_GAIN_DB cfg) / 2)) startup_ok) in
  match while_true cfg 0 ios with
  | Next c tr => Next c (ev_init ++ tr)
  | Raised tr => Raised (ev_init ++ tr)
  end.

End Filter.

(** ** Interactive calibration *)

(** The dictionary returned by [interactive_calibration]. *)
Record mic_params : Type := {
  snr : R;
  self_noise : R;
  clipping : R;
  sensitivity : R
}.

(** The dictionary returned by [calibrate_and_propose]. *)
Record proposal : Type := {
  noise_threshold_high : R;
  noise_threshold_low : R;
  min_gain_db : R;
  max_gain_db : R
}.

Definition calibrate_and_propose (cfg : config) (p : mic_params)
    : proposal :=
  let user_snr := snr p in
  let clipping := clipping p in
  let sensitivity := sensitivity p in
  let user_full_scale :=
    REFERENCE_PRESSURE *
    pow10 (clipping / 20) *
    pow10 (sensitivity / 20) in
  let fraction_high_default := NOISE_THRESHOLD_HIGH cfg / def_full_scale in
  let fraction_low_default := NOISE_THRESHOLD_LOW cfg / def_full_scale in
  let snr_ratio := user_snr / DEFAULT_SNR in
  let proposed_high := fraction_high_default * user_full_scale * snr_ratio in
  let proposed_low := fraction_low_default * user_full_scale * snr_ratio in
  let gain_offset := DEFAULT_SENSITIVITY - sensitivity in
  let proposed_min_gain := IZR (MIN_GAIN_DB cfg) + gain_offset in
  let proposed_max_gain := IZR (MAX_GAIN_DB cfg) + gain_offset in
  {| noise_threshold_high := proposed_high;
     noise_threshold_low := proposed_low;
     min_gain_db := proposed_min_gain;
     max_gain_db := proposed_max_gain |}.

(** The dictionary [subs] of [persist_calibration_to_script]: the numbers
    whose decimal text is handed to [sed]. *)
Record subs : Type := {
  subs_NOISE_THRESHOLD_HIGH : R;
  subs_NOISE_THRESHOLD_LOW : R;
  subs_MIN_GAIN_DB : Z;
  subs_MAX_GAIN_DB : Z
}.

(** The function is modelled by the [subs] it builds from the proposal;
    the rewriting of the script by [sed] is not modelled. *)
Definition persist_calibration_to_script (pr : proposal) : subs :=
  {| subs_NOISE_THRESHOLD_HIGH := format_7f (noise_threshold_high pr);
     subs_NOISE_THRESHOLD_LOW := format_7f (noise_threshold_low pr);
     subs_MIN_GAIN_DB := py_round (min_gain_db pr);
     subs_MAX_GAIN_DB := py_round (max_gain_db pr) |}.

Definition default_mic_params : mic_params :=
  {| snr := DEFAULT_SNR;
     self_noise := DEFAULT_SELF_NOISE;
     clipping := DEFAULT_CLIPPING;
     sensitivity := DEFAULT_SENSITIVITY |}.

(** ** Notions used to state the properties *)

Definition gain_in_range (cfg : config) (v : Z) : Prop :=
  (MIN_GAIN_DB cfg <= v <= MAX_GAIN_DB cfg)%Z.

(** Every [amixer sset] of a trace carries a gain within the bounds. *)
Definition writes_in_range (cfg : config) (tr : list event) : Prop :=
  Forall (fun e => match e with
                   | Amixer_sset _ v => gain_in_range cfg v
                   | _ => True
                   end) tr.

(** The gain held by an actuator that starts at [gain] and stores every
    gain written to it by the trace. *)
Definition actuator_gain (gain : Z) (tr : list event) : Z :=
  fold_left (fun g e => match e with Amixer_sset _ v => v | _ => g end)
            tr gain.

(** A stand-in for scipy on which the loop can be run on concrete inputs:
    the designed filter hands its input back. *)
Definition passthrough : scipy_signal :=
  {| sos := unit;
     butter_design := fun _ _ _ _ => tt;
     sosfilt := fun _ audio => audio |}.

(** Whether an iteration that measured [rms] with the counter at
    [no_signal_count] runs the no-signal action. *)
Definition action_fired (cfg : config) (rms : R) (no_signal_count : Z)
    : bool :=
  existsb is_action (snd (no_signal_detection cfg rms no_signal_count)).

(** The counter after the no-signal detection has seen the measurements
    [ms] one after the other. *)
Fixpoint count_after (cfg : config) (no_signal_count : Z) (ms : list R)
    : Z :=
  match ms with
  | [] => no_signal_count
  | m :: ms' =>
      count_after cfg (fst (no_signal_detection cfg m no_signal_count)) ms'
  end.

(** Sum of the squares of the samples. *)
Definition sum_sq (x : list R) : R :=
  fold_right (fun v acc => v * v + acc) 0 x.



(** A microphone that differs from the default one by half a decibel of
    sensitivity. *)
Definition half_db_mic : mic_params :=
  {| snr := 80; self_noise := 14; clipping := 120; sensitivity := -57 / 2 |}.

(** ** Audio capture *)

(** One little-endian signed 16-bit sample. *)
Definition int16_of_bytes (lo hi : Byte.byte) : Z :=
  let u := (Z.of_N (Byte.to_N lo) + 256 * Z.of_N (Byte.to_N hi))%Z in
  if (u <? 32768)%Z then u else (u - 65536)%Z.

(** [np.frombuffer(stdout, dtype=np.int16)] on the [s16le] stream of
    ffmpeg; [None] stands for the [ValueError] raised when the size of the
    buffer is not a multiple of two bytes. *)
Fixpoint frombuffer_int16 (buf : list Byte.byte) : option (list Z) :=
  match buf with
  | [] => Some []
  | [_] => None
  | lo :: hi :: rest =>
      match frombuffer_int16 rest with
      | Some samples => Some (int16_of_bytes lo hi :: samples)
      | None => None
      end
  end.

(** [capture_audio], given what running ffmpeg produced: [None] when
    [Popen] or [communicate] raised, otherwise the return code and the
    bytes of standard output.  Every exception is caught and gives
    [None]. *)
Definition capture_audio (ffmpeg : option (Z * list Byte.byte))
    : option (list R) :=
  match ffmpeg with
  | None => None
  | Some (returncode, stdout) =>
      if (returncode =? 0)%Z then
        match frombuffer_int16 stdout with
        | Some samples => Some (map (fun s => IZR s / 32768) samples)
        | None => None
        end
      else None
  end.

Definition is_sleep (e : event) : bool :=
  match e with Sleep _ => true | _ => false end.

(** The iterations after the measurement, run against an actuator that
    reports the gain last written to it: the gain it holds after the
    measurements [ms]. *)
Fixpoint closed_loop (cfg : config) (gain : Z) (no_signal_count : Z)
    (ms : list R) : Z :=
  match ms with
  | [] => gain
  | rms :: ms' =>
      let o := control_step cfg rms no_signal_count
                 {| captured := None; amixer_sget := Some (IZR gain);
                    amixer_sset_ok := true |} in
      closed_loop cfg (actuator_gain gain (trace_of o))
                  (match o with Next c _ => c | Raised _ => no_signal_count end)
                  ms'
  end.

(** ** Reading the gain *)

(** The text printed by amixer is taken to be ASCII; [\d] is then one of
    the characters 0 to 9. *)
Definition is_digit (c : ascii) : bool :=
  ((48 <=? nat_of_ascii c) && (nat_of_ascii c <=? 57))%nat.

(** The longest run of digits at the start of [s], as digit values, and
    what follows it: the greedy [\d+]. *)
Fixpoint span_digits (s : string) : list Z * string :=
  match s with
  | String c t =>
      if is_digit c
      then let '(ds, r) := span_digits t in
           ((Z.of_nat (nat_of_ascii c) - 48)%Z :: ds, r)
      else ([], s)
  | EmptyString => ([], s)
  end.

Definition decimal_value (ds : list Z) : Z :=
  fold_left (fun acc d => (10 * acc + d)%Z) ds 0%Z.

(** [float] of the text matched by [(-?\d+(\.\d+)?)]: sign, integer digits
    and fraction digits. *)
Definition float_of_match (neg : bool) (ds fs : list Z) : R :=
  let v := IZR (decimal_value ds)
           + IZR (decimal_value fs) / 10 ^ length fs in
  if neg then - v else v.

(** Whether [s] starts with [dB]] *)
Definition starts_with_dB (s : string) : bool :=
  match s with
  | String c1 (String c2 (String c3 _)) =>
      ((c1 =? "d") && (c2 =? "B") && (c3 =? "]"))%char
  | _ => false
  end.

(** A match of [\[(-?\d+(\.\d+)?)dB\]] at the start of [s]: the value of
    group 1.  The fraction is tried first and given up if [dB\]] does not
    follow it. *)
Definition match_gain (s : string) : option R :=
  match s with
  | String c s1 =>
      if (c =? "[")%char then
        let '(neg, s2) :=
          match s1 with
          | String c1 t => if (c1 =? "-")%char then (true, t) else (false, s1)
          | EmptyString => (false, s1)
          end in
        let '(ds, s3) := span_digits s2 in
        match ds with
        | [] => None
        | _ :: _ =>
            let whole :=
              if starts_with_dB s3
              then Some (float_of_match neg ds []) else None in
            match s3 with
            | String c3 s4 =>
                if (c3 =? ".")%char then
                  let '(fs, s5) := span_digits s4 in
                  match fs with
                  | [] => whole
                  | _ :: _ =>
                      if starts_with_dB s5
                      then Some (float_of_match neg ds fs) else whole
                  end
                else whole
            | EmptyString => whole
            end
        end
      else None
  | EmptyString => None
  end.

(** [re.search]: the leftmost match. *)
Fixpoint re_search (s : string) : option R :=
  match match_gain s with
  | Some v => Some v
  | None =>
      match s with
      | String _ t => re_search t
      | EmptyString => None
      end
  end.

(** [get_gain_db], given what [amixer sget] printed; [None] as input
    stands for the [CalledProcessError], which is caught. *)
Definition get_gain_db (amixer : option string) : option R :=
  match amixer with
  | Some output => re_search output
  | None => None
  end.

(** Whether the letter B occurs in [s]. *)
Fixpoint has_B (s : string) : bool :=
  match s with
  | String c t => (c =? "B")%char || has_B t
  | EmptyString => false
  end.

(** Whether [s] is made of digits only. *)
Fixpoint all_digits (s : string) : bool :=
  match s with
  | String c t => is_digit c && all_digits t
  | EmptyString => true
  end.

(** The text of a number: sign, integer digits, and fraction digits after
    a point if there are any. *)
Definition number_text (neg : bool) (ip fp : string) : string :=
  ((if neg then "-" else "") ++ ip
   ++ (match fp with EmptyString => "" | _ => "." ++ fp end))%string.

(** A text at which a run of digits ends. *)
Definition digits_stop (t : string) : Prop :=
  match t with
  | String c _ => is_digit c = false
  | EmptyString => True
  end.

(** A text that starts with an opening bracket, or is empty. *)
Definition bracket_or_empty (t : string) : Prop :=
  match t with
  | String c _ => c = "["%char
  | EmptyString => True
  end.

(** ** Interactive prompts *)

(** The two Python built-ins applied to what the user types: [str.strip]
    and [float], with [None] for its [ValueError]. *)
Record builtins : Type := {
  str_strip : string -> string;
  py_float : string -> option R
}.

(** [prompt_float] over the lines typed by the user: the value returned and
    the lines left unread; [None] when the input ends before an answer is
    accepted. *)
Fixpoint prompt_float (py : builtins) (default_val : R)
    (lines : list string) : option (R * list string) :=
  match lines with
  | [] => None
  | line :: rest =>
      let user_input := str_strip py line in
      if (user_input =? "")%string then Some (default_val, rest)
      else
        match py_float py user_input with
        | Some v => Some (v, rest)
        | None => prompt_float py default_val rest
        end
  end.

Definition interactive_calibration (py : builtins) (lines : list string)
    : option (mic_params * list string) :=
  match prompt_float py DEFAULT_SNR lines with
  | None => None
  | Some (snr, lines) =>
  match prompt_float py DEFAULT_SELF_NOISE lines with
  | None => None
  | Some (self_noise, lines) =>
  match prompt_float py DEFAULT_CLIPPING lines with
  | None => None
  | Some (clipping, lines) =>
  match prompt_float py DEFAULT_SENSITIVITY lines with
  | None => None
  | Some (sensitivity, lines) =>
      Some ({| snr := snr; self_noise := self_noise;
               clipping := clipping; sensitivity := sensitivity |}, lines)
  end end end end.

(** A line that [prompt_float] refuses: not blank and not a number. *)
Definition refused (py : builtins) (line : string) : Prop :=
  str_strip py line <> EmptyString
  /\ py_float py (str_strip py line) = None.

(** A line that [prompt_float] accepts, and the value it gives. *)
Definition accepted (py : builtins) (default_val : R) (line : string)
    (v : R) : Prop :=
  (str_strip py line = EmptyString /\ v = default_val)
  \/ (str_strip py line <> EmptyString
      /\ py_float py (str_strip py line) = Some v).

(** ** Test mode *)

(** The variables [rms_history], [iterations] and [i] of [test_mode]. *)
Record test_state : Type := {
  rms_history : list R;
  iterations : list Z;
  i : Z
}.

Definition max_points : nat := 20.

(** The slice [l[-n:]]. *)
Definition last_points {A : Type} (n : nat) (l : list A) : list A :=
  skipn (length l - n) l.

Inductive status : Type := ABOVE | BELOW | OK.

(** Result of one iteration of the loop of [test_mode]: the new state and
    what is reported as current level, or the exception of the filter. *)
Inductive test_outcome : Type :=
| Test_next (st : test_state) (shown : option (R * status))
| Test_raised.

(** One iteration of the loop of [test_mode]; drawing the graph and
    sleeping are not modelled. *)
Definition test_mode_body (scipy : scipy_signal) (cfg : config)
    (st : test_state) (audio : option (list R)) : test_outcome :=
  match audio with
  | None => Test_next st None
  | Some audio =>
      if (length audio =? 0)%nat then Test_next st None
      else
        match bandpass_filter scipy audio (LOWCUT cfg) (HIGHCUT cfg)
                              (SAMPLING_RATE cfg) (FILTER_ORDER cfg) with
        | None => Test_raised
        | Some filtered =>
            let rms := measure_rms filtered in
            let rms_history := rms_history st ++ [rms] in
            let iterations := iterations st ++ [i st] in
            let i := (i st + 1)%Z in
            let '(rms_history, iterations) :=
              if (max_points <? length rms_history)%nat
              then (last_points max_points rms_history,
                    last_points max_points iterations)
              else (rms_history, iterations) in
            let status :=
              if Rgt_dec rms (NOISE_THRESHOLD_HIGH cfg) then ABOVE
              else if Rlt_dec rms (NOISE_THRESHOLD_LOW cfg) then BELOW
              else OK in
            Test_next {| rms_history := rms_history;
                         iterations := iterations;
                         i := i |}
                      (Some (rms, status))
        end
  end.

Definition test_mode_start : test_state :=
  {| rms_history := []; iterations := []; i := 0 |}.

(** The [n] consecutive integers from [start]. *)
Definition consecutive (start : Z) (n : nat) : list Z :=
  map (fun k => (start + Z.of_nat k)%Z) (seq 0 n).

(** The graph window: as many iteration numbers as levels, at most
    [max_points] of them, and the numbers are the last ones before [i]. *)
Definition window_ok (st : test_state) : Prop :=
  length (rms_history st) = length (iterations st)
  /\ (length (iterations st) <= max_points)%nat
  /\ iterations st
     = consecutive (i st - Z.of_nat (length (iterations st)))
                   (length (iterations st)).

(** The default configuration with the gain bounds exchanged
    ([MIN_GAIN_DB = 38], [MAX_GAIN_DB = 30]). *)
Definition inverted_bounds : config :=
  {| MICROPHONE_NAME := "Line In 1 Gain";
     MIN_GAIN_DB := 38; MAX_GAIN_DB := 30; GAIN_STEP_DB := 3;
     NOISE_THRESHOLD_HIGH := 1 / 100;
     NOISE_THRESHOLD_LOW := 1 / 1000;
     NO_SIGNAL_THRESHOLD := 1 / 1000000;
     NO_SIGNAL_COUNT_THRESHOLD := 3;
     SAMPLING_RATE := 48000; LOWCUT := 2000; HIGHCUT := 8000;
     FILTER_ORDER := 4; SLEEP_SECONDS := 10 |}.

(** ** Writing the values into the script *)

(** The command [sed -i 's|^VAR = .*|VAR = VAL|'] on one line of the
    script: a line that starts with [VAR = ] becomes [VAR = VAL], any other
    line is kept. *)
Definition sed_line (var val line : string) : string :=
  if String.prefix (var ++ " = ") line
  then (var ++ " = " ++ val)%string
  else line.

(** The four [sed] commands of [persist_calibration_to_script], run in the
    order of the dictionary [subs] over the lines of the script; the
    arguments are the decimal texts of the four values. *)
Definition sed_script (high low min_gain max_gain : string)
    (script : list string) : list string :=
  map (fun line =>
         sed_line "MAX_GAIN_DB" max_gain
           (sed_line "MIN_GAIN_DB" min_gain
              (sed_line "NOISE_THRESHOLD_LOW" low
                 (sed_line "NOISE_THRESHOLD_HIGH" high line))))
      script.

(** Lines 25 to 31 of the script, which hold the four constants. *)
Definition script_constants : list string :=
  [ "MIN_GAIN_DB = 30";
    "MAX_GAIN_DB = 38";
    "GAIN_STEP_DB = 3";
    "";
    "# RMS thresholds";
    "NOISE_THRESHOLD_HIGH = 0.01";
    "NOISE_THRESHOLD_LOW  = 0.001" ]%string.

(** * Properties *)

(** ** Number conversions *)

Lemma Int_part_IZR (z : Z) : Int_part (IZR z) = z.
Proof.
  symmetry. apply Int_part_spec. lra.
Qed.

Lemma py_int_IZR (z : Z) : py_int (IZR z) = z.
Proof.
  unfold py_int. destruct (Rle_dec 0 (IZR z)).
  - apply Int_part_IZR.
  - rewrite <- opp_IZR, Int_part_IZR. lia.
Qed.

Lemma Int_part_between (lo hi : Z) (x : R) :
  IZR lo <= x <= IZR hi -> (lo <= Int_part x <= hi)%Z.
Proof.
  intros [Hlo Hhi].
  destruct (base_Int_part x) as [H1 H2].
  split.
  - apply Z.lt_succ_r. apply lt_IZR. rewrite succ_IZR. lra.
  - apply le_IZR. lra.
Qed.

Lemma py_int_between (lo hi : Z) (x : R) :
  IZR lo <= x <= IZR hi -> (lo <= py_int x <= hi)%Z.
Proof.
  intros H. unfold py_int. destruct (Rle_dec 0 x) as [Hx | Hx].
  - now apply Int_part_between.
  - assert (Hn : IZR (- hi) <= - x <= IZR (- lo)) by (rewrite !opp_IZR; lra).
    apply Int_part_between in Hn. lia.
Qed.

(** ** The gain written by [set_gain_db] *)

Lemma clamp_between (cfg : config) (g : R) :
  (MIN_GAIN_DB cfg <= MAX_GAIN_DB cfg)%Z ->
  IZR (MIN_GAIN_DB cfg)
    <= Rmax (Rmin g (IZR (MAX_GAIN_DB cfg))) (IZR (MIN_GAIN_DB cfg))
    <= IZR (MAX_GAIN_DB cfg).
Proof.
  intros H. apply IZR_le in H.
  split.
  - apply Rmax_r.
  - apply Rmax_lub; [apply Rmin_r | exact H].
Qed.

Lemma set_gain_db_in_range (cfg : config) mic (g : R) ok :
  (MIN_GAIN_DB cfg <= MAX_GAIN_DB cfg)%Z ->
  writes_in_range cfg (snd (set_gain_db cfg mic g ok)).
Proof.
  intros H. unfold set_gain_db, writes_in_range. simpl.
  constructor; [| constructor].
  apply py_int_between. now apply clamp_between.
Qed.

Lemma set_gain_db_IZR (cfg : config) mic (z : Z) ok :
  snd (set_gain_db cfg mic (IZR z) ok)
  = [Amixer_sset mic (Z.max (Z.min z (MAX_GAIN_DB cfg)) (MIN_GAIN_DB cfg))].
Proof.
  unfold set_gain_db. simpl. do 2 f_equal.
  assert (Hmin : Rmin (IZR z) (IZR (MAX_GAIN_DB cfg))
                 = IZR (Z.min z (MAX_GAIN_DB cfg))).
  { destruct (Z.le_ge_cases z (MAX_GAIN_DB cfg)) as [H | H].
    - rewrite Z.min_l by exact H. apply Rmin_left. now apply IZR_le.
    - rewrite Z.min_r by exact H. apply Rmin_right. now apply IZR_le. }
  rewrite Hmin.
  set (m := Z.min z (MAX_GAIN_DB cfg)).
  assert (Hmax : Rmax (IZR m) (IZR (MIN_GAIN_DB cfg))
                 = IZR (Z.max m (MIN_GAIN_DB cfg))).
  { destruct (Z.le_ge_cases m (MIN_GAIN_DB cfg)) as [H | H].
    - rewrite Z.max_r by exact H. apply Rmax_right. now apply IZR_le.
    - rewrite Z.max_l by exact H. apply Rmax_left. now apply IZR_le. }
  rewrite Hmax. apply py_int_IZR.
Qed.

Lemma actuator_gain_in_range (cfg : config) (tr : list event) :
  writes_in_range cfg tr ->
  forall g, gain_in_range cfg g -> gain_in_range cfg (actuator_gain g tr).
Proof.
  unfold actuator_gain.
  induction 1 as [| e tr He _ IH]; intros g Hg; simpl.
  - exact Hg.
  - apply IH. destruct e; assumption.
Qed.

Section Loop.

Variable scipy : scipy_signal.

Lemma control_step_in_range (cfg : config) rms count io :
  (MIN_GAIN_DB cfg <= MAX_GAIN_DB cfg)%Z ->
  writes_in_range cfg (trace_of (control_step cfg rms count io)).
Proof.
  intros H. unfold control_step.
  destruct (no_signal_detection cfg rms count) as [c ev] eqn:Hd.
  assert (Hev : writes_in_range cfg ev).
  { unfold no_signal_detection in Hd.
    destruct (Rlt_dec rms (NO_SIGNAL_THRESHOLD cfg)).
    - injection Hd as _ <-.
      destruct (_ >=? _)%Z; repeat constructor.
    - injection Hd as _ <-. constructor. }
  destruct (amixer_sget io) as [g |]; simpl.
  - apply Forall_app. split; [exact Hev |].
    apply Forall_app. split; [| repeat constructor].
    destruct (gain_request cfg rms g).
    + exact (set_gain_db_in_range cfg _ r (amixer_sset_ok io) H).
    + constructor.
  - apply Forall_app. split; [exact Hev | repeat constructor].
Qed.

Lemma loop_body_in_range (cfg : config) count io :
  (MIN_GAIN_DB cfg <= MAX_GAIN_DB cfg)%Z ->
  writes_in_range cfg (trace_of (loop_body scipy cfg count io)).
Proof.
  intros H. unfold loop_body.
  destruct (captured io) as [audio |]; [| repeat constructor].
  destruct (length audio =? 0)%nat; [repeat constructor |].
  destruct (bandpass_filter _ _ _ _ _ _); [| constructor].
  now apply control_step_in_range.
Qed.

Lemma while_true_in_range (cfg : config) ios :
  (MIN_GAIN_DB cfg <= MAX_GAIN_DB cfg)%Z ->
  forall count, writes_in_range cfg (trace_of (while_true scipy cfg count ios)).
Proof.
  intros H. induction ios as [| io ios IH]; intros count; simpl.
  - constructor.
  - pose proof (loop_body_in_range cfg count io H) as Hb.
    destruct (loop_body scipy cfg count io) as [c tr | tr]; simpl in *.
    + specialize (IH c).
      destruct (while_true scipy cfg c ios); simpl in *;
        apply Forall_app; split; assumption.
    + exact Hb.
Qed.

Lemma dynamic_gain_control_trace (cfg : config) ok ios :
  trace_of (dynamic_gain_control scipy cfg ok ios)
  = Amixer_sset (MICROPHONE_NAME cfg)
      (Z.max (Z.min ((MIN_GAIN_DB cfg + MAX_GAIN_DB cfg) / 2)
                    (MAX_GAIN_DB cfg)) (MIN_GAIN_DB cfg))
    :: trace_of (while_true scipy cfg 0 ios).
Proof.
  unfold dynamic_gain_control. rewrite set_gain_db_IZR.
  destruct (while_true scipy cfg 0 ios); reflexivity.
Qed.

End Loop.

(** ** Gain bounds *)

(** C1: every gain handed to [amixer sset] by [dynamic_gain_control], at
    startup and in every iteration, lies within
    [MIN_GAIN_DB, MAX_GAIN_DB], whatever is captured and whatever gain is
    read back; hence an actuator that stores the written gain holds a gain
    within the bounds after any number of iterations. *)
Theorem gain_written_within_bounds
    (scipy : scipy_signal) (cfg : config) (startup_ok : bool)
    (ios : list cycle_io) :
  (MIN_GAIN_DB cfg <= MAX_GAIN_DB cfg)%Z ->
  (forall mic v,
      In (Amixer_sset mic v)
         (trace_of (dynamic_gain_control scipy cfg startup_ok ios)) ->
      (MIN_GAIN_DB cfg <= v <= MAX_GAIN_DB cfg)%Z) /\
  (forall gain0,
      (MIN_GAIN_DB cfg
       <= actuator_gain gain0
            (trace_of (dynamic_gain_control scipy cfg startup_ok ios))
       <= MAX_GAIN_DB cfg)%Z).
Proof.
  intros H.
  rewrite dynamic_gain_control_trace.
  set (mid := Z.max (Z.min ((MIN_GAIN_DB cfg + MAX_GAIN_DB cfg) / 2)
                           (MAX_GAIN_DB cfg)) (MIN_GAIN_DB cfg)).
  assert (Hmid : gain_in_range cfg mid) by (unfold gain_in_range, mid; lia).
  pose proof (while_true_in_range scipy cfg ios H 0%Z) as Hloop.
  split.
  - intros mic v [Heq | Hin].
    + injection Heq as _ <-. exact Hmid.
    + unfold writes_in_range in Hloop. rewrite Forall_forall in Hloop.
      exact (Hloop _ Hin).
  - intros gain0. simpl.
    now apply (actuator_gain_in_range cfg).
Qed.

Lemma gain_written_within_bounds_witness :
  (MIN_GAIN_DB default_config <= MAX_GAIN_DB default_config)%Z /\
  (30 <= actuator_gain 0
           (trace_of (dynamic_gain_control passthrough default_config true
              [ {| captured := Some [1%R]; amixer_sget := Some 37%R;
                   amixer_sset_ok := true |} ]))
      <= 38)%Z.
Proof.
  split.
  - simpl. lia.
  - apply (gain_written_within_bounds passthrough default_config true).
    simpl. lia.
Defined.

(** ** The gain decision *)

Lemma no_signal_detection_no_write (cfg : config) rms count :
  filter is_sset (snd (no_signal_detection cfg rms count)) = [].
Proof.
  unfold no_signal_detection.
  destruct (Rlt_dec rms (NO_SIGNAL_THRESHOLD cfg)); simpl; [| reflexivity].
  destruct (_ >=? _)%Z; reflexivity.
Qed.

(** The writes of an iteration are those of its gain request. *)
Lemma control_step_writes (cfg : config) rms count io :
  filter is_sset (trace_of (control_step cfg rms count io))
  = match amixer_sget io with
    | Some current_gain =>
        match gain_request cfg rms current_gain with
        | Some g =>
            snd (set_gain_db cfg (MICROPHONE_NAME cfg) g (amixer_sset_ok io))
        | None => []
        end
    | None => []
    end.
Proof.
  unfold control_step.
  pose proof (no_signal_detection_no_write cfg rms count) as Hev.
  destruct (no_signal_detection cfg rms count) as [c ev]. simpl in Hev.
  destruct (amixer_sget io) as [g |]; simpl.
  - rewrite !filter_app, Hev. simpl.
    destruct (gain_request cfg rms g); reflexivity.
  - rewrite filter_app, Hev. reflexivity.
Qed.

Lemma loop_body_measured (scipy : scipy_signal) (cfg : config) count io
    audio filtered :
  captured io = Some audio ->
  audio <> [] ->
  bandpass_filter scipy audio (LOWCUT cfg) (HIGHCUT cfg)
                  (SAMPLING_RATE cfg) (FILTER_ORDER cfg) = Some filtered ->
  loop_body scipy cfg count io
  = control_step cfg (measure_rms filtered) count io.
Proof.
  intros Hc Ha Hf. unfold loop_body. rewrite Hc.
  destruct audio as [| a audio]; [contradiction |].
  simpl length. simpl Nat.eqb. cbv iota. now rewrite Hf.
Qed.

Lemma loop_body_no_capture (scipy : scipy_signal) (cfg : config) count io :
  captured io = None \/ captured io = Some [] ->
  loop_body scipy cfg count io = Next count [Sleep (SLEEP_SECONDS cfg)].
Proof.
  unfold loop_body. intros [-> | ->]; reflexivity.
Qed.

Lemma gain_request_dead_zone (cfg : config) rms current_gain :
  NOISE_THRESHOLD_LOW cfg <= rms <= NOISE_THRESHOLD_HIGH cfg ->
  gain_request cfg rms current_gain = None.
Proof.
  intros [Hlo Hhi]. unfold gain_request.
  destruct (Rgt_dec rms (NOISE_THRESHOLD_HIGH cfg)); [lra |].
  destruct (Rlt_dec rms (NOISE_THRESHOLD_LOW cfg)); [lra | reflexivity].
Qed.

(** C2: a measurement inside the inclusive dead zone
    [NOISE_THRESHOLD_LOW <= rms <= NOISE_THRESHOLD_HIGH] requests no gain,
    whatever the current gain is, and the iteration that measured it runs
    no [amixer sset]. *)
Theorem dead_zone_no_write
    (cfg : config) (rms : R) (count : Z) (io : cycle_io) :
  NOISE_THRESHOLD_LOW cfg <= rms <= NOISE_THRESHOLD_HIGH cfg ->
  (forall current_gain, gain_request cfg rms current_gain = None) /\
  filter is_sset (trace_of (control_step cfg rms count io)) = [] /\
  (forall scipy audio filtered,
      captured io = Some audio ->
      bandpass_filter scipy audio (LOWCUT cfg) (HIGHCUT cfg)
                      (SAMPLING_RATE cfg) (FILTER_ORDER cfg) = Some filtered ->
      measure_rms filtered = rms ->
      filter is_sset (trace_of (loop_body scipy cfg count io)) = []).
Proof.
  intros Hzone.
  assert (Hstep : forall c,
             filter is_sset (trace_of (control_step cfg rms c io)) = []).
  { intros c. rewrite control_step_writes.
    destruct (amixer_sget io) as [g |]; [| reflexivity].
    now rewrite gain_request_dead_zone. }
  split; [| split].
  - intros g. now apply gain_request_dead_zone.
  - apply Hstep.
  - intros scipy audio filtered Hc Hf Hrms.
    destruct audio as [| a audio].
    + rewrite loop_body_no_capture by (now right). reflexivity.
    + rewrite (loop_body_measured scipy cfg count io (a :: audio) filtered)
        by (assumption || discriminate).
      rewrite Hrms. apply Hstep.
Qed.

Lemma dead_zone_no_write_witness :
  (1 / 1000 <= 5 / 1000 <= 1 / 100) /\
  filter is_sset
    (trace_of (control_step default_config (5 / 1000) 0
       {| captured := Some [1]; amixer_sget := Some 34;
          amixer_sset_ok := true |})) = [].
Proof.
  split.
  - lra.
  - apply (dead_zone_no_write default_config (5 / 1000) 0).
    simpl. lra.
Defined.

Lemma set_gain_db_above (cfg : config) mic (g : R) ok :
  (MIN_GAIN_DB cfg <= MAX_GAIN_DB cfg)%Z ->
  IZR (MAX_GAIN_DB cfg) <= g ->
  snd (set_gain_db cfg mic g ok) = [Amixer_sset mic (MAX_GAIN_DB cfg)].
Proof.
  intros H Hg. apply IZR_le in H. unfold set_gain_db. simpl.
  rewrite Rmin_right by exact Hg.
  rewrite Rmax_left by exact H.
  now rewrite py_int_IZR.
Qed.

Lemma set_gain_db_below (cfg : config) mic (g : R) ok :
  g <= IZR (MIN_GAIN_DB cfg) ->
  snd (set_gain_db cfg mic g ok) = [Amixer_sset mic (MIN_GAIN_DB cfg)].
Proof.
  intros Hg. unfold set_gain_db. simpl.
  rewrite Rmax_right.
  - now rewrite py_int_IZR.
  - apply Rle_trans with g; [apply Rmin_l | exact Hg].
Qed.

(** C3: with the default bounds 30 and 38 and step 3, a measurement above
    [NOISE_THRESHOLD_HIGH] at current gain 34 requests and writes 31; a
    measurement below [NOISE_THRESHOLD_LOW] at current gain 37 requests 40
    and writes 38.  In general a request is stepped first and then
    clamped: [set_gain_db] always runs exactly one [amixer sset], with the
    upper bound for a request at or above it and the lower bound for a
    request at or below it. *)
Theorem step_then_clamp
    (rms_high rms_low : R) (count : Z) (audio : option (list R))
    (ok : bool) :
  rms_high > NOISE_THRESHOLD_HIGH default_config ->
  rms_low < NOISE_THRESHOLD_LOW default_config ->
  let io g :=
    {| captured := audio; amixer_sget := Some g; amixer_sset_ok := ok |} in
  (gain_request default_config rms_high 34 = Some 31 /\
   filter is_sset
     (trace_of (control_step default_config rms_high count (io 34)))
   = [Amixer_sset "Line In 1 Gain" 31]) /\
  (gain_request default_config rms_low 37 = Some 40 /\
   filter is_sset
     (trace_of (control_step default_config rms_low count (io 37)))
   = [Amixer_sset "Line In 1 Gain" 38]) /\
  (forall cfg mic g ok',
      exists v, set_gain_db cfg mic g ok' = (ok', [Amixer_sset mic v])) /\
  (forall cfg mic g ok',
      (MIN_GAIN_DB cfg <= MAX_GAIN_DB cfg)%Z ->
      IZR (MAX_GAIN_DB cfg) <= g ->
      snd (set_gain_db cfg mic g ok') = [Amixer_sset mic (MAX_GAIN_DB cfg)]) /\
  (forall cfg mic g ok',
      g <= IZR (MIN_GAIN_DB cfg) ->
      snd (set_gain_db cfg mic g ok') = [Amixer_sset mic (MIN_GAIN_DB cfg)]).
Proof.
  intros Hhigh Hlow io. simpl in Hhigh, Hlow.
  assert (Rhigh : gain_request default_config rms_high 34 = Some 31).
  { unfold gain_request. simpl.
    destruct (Rgt_dec rms_high (1 / 100)); [| lra].
    f_equal. lra. }
  assert (Rlow : gain_request default_config rms_low 37 = Some 40).
  { unfold gain_request. simpl.
    destruct (Rgt_dec rms_low (1 / 100)); [lra |].
    destruct (Rlt_dec rms_low (1 / 1000)); [| lra].
    f_equal. lra. }
  repeat split.
  - exact Rhigh.
  - rewrite control_step_writes.
    change (amixer_sget (io 34)) with (Some 34). cbv beta iota.
    rewrite Rhigh. now rewrite set_gain_db_IZR.
  - exact Rlow.
  - rewrite control_step_writes.
    change (amixer_sget (io 37)) with (Some 37). cbv beta iota.
    rewrite Rlow. now rewrite set_gain_db_IZR.
  - intros cfg mic g ok'. eexists. reflexivity.
  - intros cfg mic g ok'. apply set_gain_db_above.
  - intros cfg mic g ok'. apply set_gain_db_below.
Qed.

Lemma step_then_clamp_witness :
  gain_request default_config 1 34 = Some 31 /\
  filter is_sset
    (trace_of (control_step default_config 0 0
       {| captured := Some [0]; amixer_sget := Some 37;
          amixer_sset_ok := true |}))
  = [Amixer_sset "Line In 1 Gain" 38].
Proof.
  assert (Hhigh : 1 > NOISE_THRESHOLD_HIGH default_config) by (simpl; lra).
  assert (Hlow : 0 < NOISE_THRESHOLD_LOW default_config) by (simpl; lra).
  pose proof (step_then_clamp 1 0 0 (Some [0]) true Hhigh Hlow) as H.
  simpl in H. split.
  - exact (proj1 (proj1 H)).
  - exact (proj2 (proj1 (proj2 H))).
Defined.

(** ** No-signal detection *)

Lemma no_signal_below (cfg : config) m c :
  m < NO_SIGNAL_THRESHOLD cfg ->
  no_signal_detection cfg m c
  = ((c + 1)%Z,
     if (c + 1 >=? NO_SIGNAL_COUNT_THRESHOLD cfg)%Z
     then [No_signal_action] else []).
Proof.
  intros H. unfold no_signal_detection.
  destruct (Rlt_dec m (NO_SIGNAL_THRESHOLD cfg)); [reflexivity | contradiction].
Qed.

Lemma no_signal_not_below (cfg : config) m c :
  ~ m < NO_SIGNAL_THRESHOLD cfg ->
  no_signal_detection cfg m c = (0%Z, []).
Proof.
  intros H. unfold no_signal_detection.
  destruct (Rlt_dec m (NO_SIGNAL_THRESHOLD cfg)); [contradiction | reflexivity].
Qed.

Lemma action_fired_iff (cfg : config) m c :
  action_fired cfg m c = true
  <-> m < NO_SIGNAL_THRESHOLD cfg
      /\ (c + 1 >= NO_SIGNAL_COUNT_THRESHOLD cfg)%Z.
Proof.
  unfold action_fired.
  destruct (Rlt_dec m (NO_SIGNAL_THRESHOLD cfg)) as [Hm | Hm].
  - rewrite no_signal_below by exact Hm. simpl.
    destruct (Z.geb_spec (c + 1) (NO_SIGNAL_COUNT_THRESHOLD cfg)); simpl.
    + split; [intros _; split; [exact Hm | lia] | reflexivity].
    + split; [discriminate | intros [_ Hc]; lia].
  - rewrite no_signal_not_below by exact Hm. simpl.
    split; [discriminate | intros [Hc _]; contradiction].
Qed.

Lemma count_after_below (cfg : config) ms :
  Forall (fun m => m < NO_SIGNAL_THRESHOLD cfg) ms ->
  forall c, count_after cfg c ms = (c + Z.of_nat (length ms))%Z.
Proof.
  induction 1 as [| m ms Hm _ IH]; intros c.
  - simpl. lia.
  - cbn [count_after]. rewrite no_signal_below by exact Hm.
    cbn [fst]. rewrite IH. cbn [length]. lia.
Qed.

Lemma control_step_action (cfg : config) m c io :
  exists tr,
    control_step cfg m c io = Next (fst (no_signal_detection cfg m c)) tr
    /\ existsb is_action tr = action_fired cfg m c.
Proof.
  unfold control_step, action_fired.
  destruct (no_signal_detection cfg m c) as [c' ev]. cbn [fst snd].
  destruct (amixer_sget io) as [g |]; eexists; (split; [reflexivity |]).
  - rewrite !existsb_app.
    destruct (gain_request cfg m g); simpl;
      now rewrite !orb_false_r.
  - rewrite existsb_app. simpl. now rewrite orb_false_r.
Qed.

(** C4: a measurement below [NO_SIGNAL_THRESHOLD] increments
    [no_signal_count], any other measurement resets it to 0.  The action
    runs exactly when the measurement is below the threshold and the
    incremented counter has reached [NO_SIGNAL_COUNT_THRESHOLD]; the loop
    iteration carries that counter on and runs the action accordingly.
    From a counter at 0 and with the limit 3, the third of three consecutive
    measurements below the threshold runs the action and the first two do
    not.  The action runs again on every further measurement below the
    threshold, and the counter grows by one each time without bound. *)
Theorem no_signal_watchdog (cfg : config) :
  let below m := m < NO_SIGNAL_THRESHOLD cfg in
  (forall m c, below m ->
      fst (no_signal_detection cfg m c) = (c + 1)%Z) /\
  (forall m c, ~ below m ->
      fst (no_signal_detection cfg m c) = 0%Z
      /\ action_fired cfg m c = false) /\
  (forall m c,
      action_fired cfg m c = true
      <-> below m /\ (c + 1 >= NO_SIGNAL_COUNT_THRESHOLD cfg)%Z) /\
  (forall m c io, exists tr,
      control_step cfg m c io = Next (fst (no_signal_detection cfg m c)) tr
      /\ existsb is_action tr = action_fired cfg m c) /\
  (NO_SIGNAL_COUNT_THRESHOLD cfg = 3%Z ->
   forall m1 m2 m3, below m1 -> below m2 -> below m3 ->
      action_fired cfg m1 0 = false
      /\ action_fired cfg m2 (count_after cfg 0 [m1]) = false
      /\ action_fired cfg m3 (count_after cfg 0 [m1; m2]) = true) /\
  (forall ms m, Forall below ms -> below m ->
      (Z.of_nat (length ms) + 1 >= NO_SIGNAL_COUNT_THRESHOLD cfg)%Z ->
      action_fired cfg m (count_after cfg 0 ms) = true) /\
  (forall ms c, Forall below ms ->
      count_after cfg c ms = (c + Z.of_nat (length ms))%Z).
Proof.
  intros below. unfold below.
  split; [| split; [| split; [| split; [| split; [| split]]]]].
  - intros m c Hm. now rewrite no_signal_below.
  - intros m c Hm. split.
    + now rewrite no_signal_not_below.
    + apply not_true_is_false. rewrite action_fired_iff. tauto.
  - apply action_fired_iff.
  - apply control_step_action.
  - intros Hlimit m1 m2 m3 H1 H2 H3. split; [| split].
    + apply not_true_is_false. rewrite action_fired_iff. lia.
    + apply not_true_is_false. rewrite action_fired_iff.
      rewrite count_after_below by (repeat constructor; assumption).
      simpl. lia.
    + apply action_fired_iff.
      rewrite count_after_below by (repeat constructor; assumption).
      simpl. split; [assumption | lia].
  - intros ms m Hms Hm Hlen. apply action_fired_iff.
    rewrite count_after_below by exact Hms. split; [exact Hm | lia].
  - intros ms c Hms. now apply count_after_below.
Qed.

Lemma no_signal_watchdog_witness :
  (1 / 10000000 < NO_SIGNAL_THRESHOLD default_config) /\
  action_fired default_config (1 / 10000000)
    (count_after default_config 0 [1 / 10000000; 1 / 10000000]) = true.
Proof.
  assert (H : 1 / 10000000 < NO_SIGNAL_THRESHOLD default_config)
    by (simpl; lra).
  split.
  - exact H.
  - exact (proj2 (proj2
             (proj1 (proj2 (proj2 (proj2 (proj2
                (no_signal_watchdog default_config)))))
                eq_refl _ _ _ H H H))).
Defined.

(** ** Capture failure *)

(** C8: when [capture_audio] returns [None] or an empty buffer, the
    iteration neither filters nor measures, leaves [no_signal_count] as it
    was, reads and writes no gain and runs no action: it only sleeps for
    [SLEEP_SECONDS], and the loop goes on with the next iteration from the
    same counter. *)
Theorem capture_failure_skips_cycle
    (scipy : scipy_signal) (cfg : config) (count : Z) (io : cycle_io) :
  captured io = None \/ captured io = Some [] ->
  loop_body scipy cfg count io = Next count [Sleep (SLEEP_SECONDS cfg)] /\
  (forall ios,
      while_true scipy cfg count (io :: ios)
      = match while_true scipy cfg count ios with
        | Next c tr => Next c (Sleep (SLEEP_SECONDS cfg) :: tr)
        | Raised tr => Raised (Sleep (SLEEP_SECONDS cfg) :: tr)
        end).
Proof.
  intros H. split.
  - now apply loop_body_no_capture.
  - intros ios. cbn [while_true].
    rewrite loop_body_no_capture by exact H.
    destruct (while_true scipy cfg count ios); reflexivity.
Qed.

Lemma capture_failure_skips_cycle_witness :
  loop_body passthrough default_config 2
    {| captured := None; amixer_sget := Some 34; amixer_sset_ok := true |}
  = Next 2 [Sleep 10].
Proof.
  apply (capture_failure_skips_cycle passthrough default_config 2).
  left. reflexivity.
Defined.

(** ** The level meter *)

Lemma sum_of_squares (x : list R) :
  fold_right Rplus 0 (map (fun v => v ^ 2) x) = sum_sq x.
Proof.
  unfold sum_sq. induction x as [| v x IH]; cbn [map fold_right].
  - reflexivity.
  - rewrite IH. ring.
Qed.

Lemma measure_rms_nonempty (x : list R) :
  x <> [] -> measure_rms x = sqrt (sum_sq x / INR (length x)).
Proof.
  intros Hx. unfold measure_rms, mean.
  destruct x as [| v x]; [contradiction |].
  rewrite length_map, sum_of_squares. reflexivity.
Qed.

(** C9: on a non-empty sequence [measure_rms] is the square root of the
    mean of the squares; its result is never negative; on the empty
    sequence it is 0. *)
Theorem rms_root_mean_square (x : list R) :
  (x <> [] -> measure_rms x = sqrt (sum_sq x / INR (length x))) /\
  0 <= measure_rms x /\
  measure_rms [] = 0.
Proof.
  split; [| split].
  - apply measure_rms_nonempty.
  - unfold measure_rms. destruct (0 <? length x)%nat.
    + apply sqrt_pos.
    + apply Rle_refl.
  - reflexivity.
Qed.

Lemma rms_root_mean_square_witness :
  measure_rms [3; 4] = sqrt ((3 * 3 + (4 * 4 + 0)) / (1 + 1)).
Proof.
  apply (proj1 (rms_root_mean_square [3; 4])). discriminate.
Defined.

(** ** Calibration *)

Lemma pow10_pos (x : R) : 0 < pow10 x.
Proof. unfold pow10, Rpower. apply exp_pos. Qed.

Lemma full_scale_pos (c s : R) :
  0 < REFERENCE_PRESSURE * pow10 (c / 20) * pow10 (s / 20).
Proof.
  assert (0 < REFERENCE_PRESSURE) by (unfold REFERENCE_PRESSURE; lra).
  apply Rmult_lt_0_compat; [apply Rmult_lt_0_compat |];
    [assumption | apply pow10_pos | apply pow10_pos].
Qed.

Lemma def_full_scale_pos : 0 < def_full_scale.
Proof. apply full_scale_pos. Qed.

Lemma py_round_IZR (z : Z) : py_round (IZR z) = z.
Proof.
  unfold py_round. rewrite Int_part_IZR.
  destruct (Rlt_dec (IZR z - IZR z) (1 / 2)); [reflexivity | lra].
Qed.

Lemma py_round_near (x : R) : - (1 / 2) <= IZR (py_round x) - x <= 1 / 2.
Proof.
  unfold py_round.
  destruct (base_Int_part x) as [H1 H2].
  set (f := Int_part x) in *.
  destruct (Rlt_dec (x - IZR f) (1 / 2)); [lra |].
  destruct (Rlt_dec (1 / 2) (x - IZR f)).
  - rewrite plus_IZR. lra.
  - destruct (Z.even f); [| rewrite plus_IZR]; lra.
Qed.

Lemma py_round_close (x : R) : Rabs (IZR (py_round x) - x) <= 1 / 2.
Proof. apply Rabs_le, py_round_near. Qed.

Lemma format_7f_close (x : R) : Rabs (format_7f x - x) <= 1 / 20000000.
Proof.
  unfold format_7f.
  pose proof (py_round_near (x * 10000000)) as H.
  apply Rabs_le. lra.
Qed.

Lemma format_7f_exact (z : Z) : format_7f (IZR z / 10000000) = IZR z / 10000000.
Proof.
  unfold format_7f.
  replace (IZR z / 10000000 * 10000000) with (IZR z) by lra.
  now rewrite py_round_IZR.
Qed.

(** C5: fed the default microphone specifications, the calibration
    proposes the default thresholds 0.01 and 0.001 and the default gain
    bounds 30 and 38, and the values prepared for the script are these
    same numbers. *)
Theorem calibration_identity :
  calibrate_and_propose default_config default_mic_params
  = {| noise_threshold_high := 1 / 100;
       noise_threshold_low := 1 / 1000;
       min_gain_db := 30;
       max_gain_db := 38 |} /\
  persist_calibration_to_script
    (calibrate_and_propose default_config default_mic_params)
  = {| subs_NOISE_THRESHOLD_HIGH := 1 / 100;
       subs_NOISE_THRESHOLD_LOW := 1 / 1000;
       subs_MIN_GAIN_DB := 30;
       subs_MAX_GAIN_DB := 38 |}.
Proof.
  assert (Hid : calibrate_and_propose default_config default_mic_params
                = {| noise_threshold_high := 1 / 100;
                     noise_threshold_low := 1 / 1000;
                     min_gain_db := 30;
                     max_gain_db := 38 |}).
  { pose proof def_full_scale_pos as Hfs.
    unfold calibrate_and_propose.
    cbn [snr clipping sensitivity default_mic_params default_config
         NOISE_THRESHOLD_HIGH NOISE_THRESHOLD_LOW MIN_GAIN_DB MAX_GAIN_DB].
    fold def_full_scale.
    f_equal; unfold DEFAULT_SNR, DEFAULT_SENSITIVITY; try lra; field; lra. }
  split; [exact Hid |].
  rewrite Hid. unfold persist_calibration_to_script.
  cbn [noise_threshold_high noise_threshold_low min_gain_db max_gain_db].
  f_equal.
  - replace (1 / 100) with (IZR 100000 / 10000000) by lra.
    apply format_7f_exact.
  - replace (1 / 1000) with (IZR 10000 / 10000000) by lra.
    apply format_7f_exact.
  - apply py_round_IZR.
  - apply py_round_IZR.
Qed.

Lemma half_not_whole (z : Z) : IZR z <> 61 / 2.
Proof.
  intros H.
  assert (H2 : IZR (2 * z) = IZR 61) by (rewrite mult_IZR; lra).
  apply eq_IZR in H2. lia.
Qed.

Lemma py_round_half : py_round (61 / 2) = 30%Z.
Proof.
  unfold py_round.
  assert (Hf : Int_part (61 / 2) = 30%Z)
    by (symmetry; apply Int_part_spec; lra).
  rewrite Hf.
  destruct (Rlt_dec (61 / 2 - 30) (1 / 2)); [lra |].
  destruct (Rlt_dec (1 / 2) (61 / 2 - 30)); [lra | reflexivity].
Qed.

(** C7, as stated, fails: for a microphone of sensitivity -28.5 the
    returned [min_gain_db] is 30.5, which is no whole number of decibels;
    the whole number 30 appears only among the values prepared for the
    script. *)
Lemma calibration_returns_unrounded :
  min_gain_db (calibrate_and_propose default_config half_db_mic) = 61 / 2 /\
  (~ exists z : Z,
       min_gain_db (calibrate_and_propose default_config half_db_mic)
       = IZR z) /\
  subs_MIN_GAIN_DB
    (persist_calibration_to_script
       (calibrate_and_propose default_config half_db_mic)) = 30%Z.
Proof.
  assert (Hmin : min_gain_db
                   (calibrate_and_propose default_config half_db_mic)
                 = 61 / 2).
  { unfold calibrate_and_propose.
    cbn [min_gain_db sensitivity half_db_mic MIN_GAIN_DB default_config].
    unfold DEFAULT_SENSITIVITY. lra. }
  split; [exact Hmin | split].
  - rewrite Hmin. intros [z Hz]. symmetry in Hz.
    exact (half_not_whole z Hz).
  - unfold persist_calibration_to_script. cbn [subs_MIN_GAIN_DB].
    rewrite Hmin. apply py_round_half.
Qed.

(** C7, amended: [calibrate_and_propose] returns the proposed thresholds
    and gain bounds as computed, without rounding; the rounding is done
    when [persist_calibration_to_script] prepares the values for the
    script: each threshold to seven decimals, each gain bound to the
    nearest whole decibel. *)
Theorem rounding_when_persisting (cfg : config) (p : mic_params) :
  let pr := calibrate_and_propose cfg p in
  let user_full_scale :=
    REFERENCE_PRESSURE * pow10 (clipping p / 20)
    * pow10 (sensitivity p / 20) in
  (noise_threshold_high pr
   = NOISE_THRESHOLD_HIGH cfg / def_full_scale * user_full_scale
     * (snr p / DEFAULT_SNR) /\
   noise_threshold_low pr
   = NOISE_THRESHOLD_LOW cfg / def_full_scale * user_full_scale
     * (snr p / DEFAULT_SNR) /\
   min_gain_db pr
   = IZR (MIN_GAIN_DB cfg) + (DEFAULT_SENSITIVITY - sensitivity p) /\
   max_gain_db pr
   = IZR (MAX_GAIN_DB cfg) + (DEFAULT_SENSITIVITY - sensitivity p)) /\
  (let s := persist_calibration_to_script pr in
   Rabs (subs_NOISE_THRESHOLD_HIGH s - noise_threshold_high pr)
     <= 1 / 20000000 /\
   Rabs (subs_NOISE_THRESHOLD_LOW s - noise_threshold_low pr)
     <= 1 / 20000000 /\
   (exists n : Z, subs_NOISE_THRESHOLD_HIGH s = IZR n / 10000000) /\
   (exists n : Z, subs_NOISE_THRESHOLD_LOW s = IZR n / 10000000) /\
   Rabs (IZR (subs_MIN_GAIN_DB s) - min_gain_db pr) <= 1 / 2 /\
   Rabs (IZR (subs_MAX_GAIN_DB s) - max_gain_db pr) <= 1 / 2).
Proof.
  intros pr user_full_scale.
  split.
  - repeat split.
  - unfold persist_calibration_to_script.
    cbn [subs_NOISE_THRESHOLD_HIGH subs_NOISE_THRESHOLD_LOW
         subs_MIN_GAIN_DB subs_MAX_GAIN_DB].
    repeat split;
      try apply format_7f_close; try apply py_round_close;
      unfold format_7f; eexists; reflexivity.
Qed.

(** C10: for a positive signal-to-noise ratio and thresholds in order,
    the proposed thresholds are in the same strict order, and the proposed
    gain bounds are as far apart as the configured ones. *)
Theorem calibration_preserves_order (cfg : config) (p : mic_params) :
  0 < snr p ->
  NOISE_THRESHOLD_LOW cfg < NOISE_THRESHOLD_HIGH cfg ->
  let pr := calibrate_and_propose cfg p in
  noise_threshold_low pr < noise_threshold_high pr /\
  max_gain_db pr - min_gain_db pr
  = IZR (MAX_GAIN_DB cfg) - IZR (MIN_GAIN_DB cfg).
Proof.
  intros Hsnr Hth pr. unfold pr, calibrate_and_propose.
  cbn [noise_threshold_low noise_threshold_high min_gain_db max_gain_db].
  split; [| lra].
  pose proof def_full_scale_pos as Hd.
  pose proof (full_scale_pos (clipping p) (sensitivity p)) as Hu.
  assert (Hr : 0 < snr p / DEFAULT_SNR).
  { unfold DEFAULT_SNR. apply Rdiv_lt_0_compat; lra. }
  apply Rmult_lt_compat_r; [exact Hr |].
  apply Rmult_lt_compat_r; [exact Hu |].
  apply Rmult_lt_compat_r; [| exact Hth].
  now apply Rinv_0_lt_compat.
Qed.

Lemma calibration_preserves_order_witness :
  noise_threshold_low (calibrate_and_propose default_config half_db_mic)
  < noise_threshold_high (calibrate_and_propose default_config half_db_mic).
Proof.
  apply (calibration_preserves_order default_config half_db_mic).
  - simpl. lra.
  - simpl. lra.
Defined.

(** ** Invalid filter cutoffs *)







(** ** Further properties of the level meter *)

Lemma sum_sq_nonneg (x : list R) : 0 <= sum_sq x.
Proof.
  unfold sum_sq. induction x as [| v x IH]; cbn [fold_right].
  - apply Rle_refl.
  - pose proof (Rle_0_sqr v) as Hv. unfold Rsqr in Hv. lra.
Qed.

Lemma sum_sq_scale (k : R) (x : list R) :
  sum_sq (map (Rmult k) x) = k * k * sum_sq x.
Proof.
  unfold sum_sq. induction x as [| v x IH]; cbn [map fold_right].
  - ring.
  - rewrite IH. ring.
Qed.

Lemma sum_sq_bound (b : R) (x : list R) :
  (forall v, In v x -> Rabs v <= b) ->
  sum_sq x <= INR (length x) * (b * b).
Proof.
  unfold sum_sq. induction x as [| v x IH]; intros Hb.
  - simpl. lra.
  - cbn [fold_right length]. rewrite (S_INR (length x)).
    assert (Hv : v * v <= b * b).
    { pose proof (Hb v (or_introl eq_refl)) as H.
      pose proof (Rabs_pos v) as H0.
      replace (v * v) with (Rabs v * Rabs v)
        by (unfold Rabs; destruct (Rcase_abs v); ring).
      apply Rmult_le_compat; assumption. }
    assert (Hx : fold_right (fun v acc => v * v + acc) 0 x
                 <= INR (length x) * (b * b))
      by (apply IH; intros w Hw; apply Hb; now right).
    lra.
Qed.

Lemma sum_sq_zero (x : list R) :
  sum_sq x = 0 -> Forall (fun v => v = 0) x.
Proof.
  induction x as [| v x IH]; intros H.
  - constructor.
  - unfold sum_sq in H. cbn [fold_right] in H. fold (sum_sq x) in H.
    pose proof (sum_sq_nonneg x) as Hx.
    pose proof (Rle_0_sqr v) as Hv. unfold Rsqr in Hv.
    constructor.
    + assert (Hvv : v * v = 0) by lra.
      apply Rmult_integral in Hvv. tauto.
    + apply IH. lra.
Qed.

Lemma length_pos_INR (A : Type) (x : list A) : x <> [] -> 0 < INR (length x).
Proof.
  intros Hx. destruct x as [| a x]; [contradiction |].
  apply lt_0_INR. simpl. lia.
Qed.

(** X1: scaling every sample by [k] scales the measured level by [|k|]. *)
Theorem measure_rms_scale (k : R) (x : list R) :
  measure_rms (map (Rmult k) x) = Rabs k * measure_rms x.
Proof.
  destruct x as [| v x].
  - simpl. unfold measure_rms. simpl. ring.
  - rewrite !measure_rms_nonempty by discriminate.
    rewrite sum_sq_scale, length_map.
    set (n := INR (length (v :: x))).
    assert (Hn : 0 < n) by (apply length_pos_INR; discriminate).
    pose proof (sum_sq_nonneg (v :: x)) as Hs.
    replace (k * k * sum_sq (v :: x) / n)
      with (Rsqr k * (sum_sq (v :: x) / n)) by (unfold Rsqr; field; lra).
    rewrite sqrt_mult.
    + now rewrite sqrt_Rsqr_abs.
    + apply Rle_0_sqr.
    + apply Rmult_le_pos; [exact Hs |].
      apply Rlt_le. now apply Rinv_0_lt_compat.
Qed.

Lemma sum_sq_permutation (x y : list R) :
  Permutation x y -> sum_sq x = sum_sq y.
Proof.
  unfold sum_sq. induction 1; cbn [fold_right]; lra.
Qed.

(** X2: the measured level does not depend on the order of the samples. *)
Theorem measure_rms_permutation (x y : list R) :
  Permutation x y -> measure_rms x = measure_rms y.
Proof.
  intros H.
  destruct x as [| v x].
  - apply Permutation_nil in H. now subst.
  - assert (Hy : y <> []).
    { intros ->. apply Permutation_sym, Permutation_nil in H. discriminate. }
    rewrite !measure_rms_nonempty by (assumption || discriminate).
    now rewrite (sum_sq_permutation _ _ H), (Permutation_length H).
Qed.

Lemma measure_rms_permutation_witness :
  measure_rms [1; 2; 3] = measure_rms [2; 1; 3].
Proof.
  apply measure_rms_permutation. apply perm_swap.
Defined.

(** X3: if every sample has magnitude at most [b], so has the measured
    level. *)
Theorem measure_rms_bound (b : R) (x : list R) :
  0 <= b ->
  (forall v, In v x -> Rabs v <= b) ->
  measure_rms x <= b.
Proof.
  intros Hb Hx.
  destruct x as [| v x].
  - unfold measure_rms. simpl. exact Hb.
  - rewrite measure_rms_nonempty by discriminate.
    set (n := INR (length (v :: x))).
    assert (Hn : 0 < n) by (apply length_pos_INR; discriminate).
    pose proof (sum_sq_bound b (v :: x) Hx) as Hs. fold n in Hs.
    rewrite <- (sqrt_square b) by exact Hb.
    apply sqrt_le_1_alt.
    apply Rmult_le_reg_r with n; [exact Hn |].
    replace (sum_sq (v :: x) / n * n) with (sum_sq (v :: x))
      by (field; lra).
    lra.
Qed.

Lemma measure_rms_bound_witness : measure_rms [1 / 2; - (1 / 2)] <= 1.
Proof.
  apply measure_rms_bound.
  - lra.
  - intros v [<- | [<- | []]]; unfold Rabs;
      match goal with |- context [Rcase_abs ?a] => destruct (Rcase_abs a) end;
      lra.
Defined.

(** X4: the measured level is 0 exactly when every sample is 0 (in
    particular for the empty sequence). *)
Theorem measure_rms_zero_iff (x : list R) :
  measure_rms x = 0 <-> Forall (fun v => v = 0) x.
Proof.
  destruct x as [| v x].
  - split; [constructor | reflexivity].
  - rewrite measure_rms_nonempty by discriminate.
    set (n := INR (length (v :: x))).
    assert (Hn : 0 < n) by (apply length_pos_INR; discriminate).
    pose proof (sum_sq_nonneg (v :: x)) as Hs.
    split.
    + intros H. apply sum_sq_zero.
      apply sqrt_eq_0 in H.
      * apply Rmult_eq_reg_r with (/ n).
        -- unfold Rdiv in H. lra.
        -- apply Rgt_not_eq. now apply Rinv_0_lt_compat.
      * apply Rmult_le_pos; [exact Hs |].
        apply Rlt_le. now apply Rinv_0_lt_compat.
    + intros H.
      assert (Hz : sum_sq (v :: x) = 0).
      { clear -H. induction H as [| w l Hw _ IH].
        - reflexivity.
        - unfold sum_sq in *. cbn [fold_right]. rewrite IH, Hw. ring. }
      rewrite Hz. unfold Rdiv. rewrite Rmult_0_l. apply sqrt_0.
Qed.

(** ** Audio capture *)

Lemma int16_of_bytes_range (lo hi : Byte.byte) :
  (-32768 <= int16_of_bytes lo hi <= 32767)%Z.
Proof.
  unfold int16_of_bytes.
  pose proof (Byte.to_N_bounded lo) as Hlo.
  pose proof (Byte.to_N_bounded hi) as Hhi.
  destruct (Z.ltb_spec (Z.of_N (Byte.to_N lo) + 256 * Z.of_N (Byte.to_N hi))
                       32768); lia.
Qed.

Lemma frombuffer_int16_spec (buf : list Byte.byte) :
  match frombuffer_int16 buf with
  | Some samples =>
      Nat.even (length buf) = true
      /\ (2 * length samples = length buf)%nat
      /\ Forall (fun s => (-32768 <= s <= 32767)%Z) samples
  | None => Nat.even (length buf) = false
  end.
Proof.
  induction buf as [buf IH] using (induction_ltof1 _ (@length Byte.byte)).
  unfold ltof in IH.
  destruct buf as [| lo [| hi rest]].
  - simpl. repeat split. constructor.
  - reflexivity.
  - specialize (IH rest ltac:(simpl; lia)).
    cbn [frombuffer_int16].
    destruct (frombuffer_int16 rest) as [samples |].
    + destruct IH as (He & Hl & Hf).
      cbn [length]. repeat split.
      * exact He.
      * lia.
      * constructor; [apply int16_of_bytes_range | exact Hf].
    + exact IH.
Qed.

(** X5: [capture_audio] returns a buffer exactly when ffmpeg ran, exited
    with status 0 and wrote an even number of bytes; the buffer then holds
    one sample for every two bytes, and every sample lies between -1 and
    32767/32768. *)
Theorem capture_audio_samples (ffmpeg : option (Z * list Byte.byte)) :
  match capture_audio ffmpeg with
  | Some audio =>
      exists stdout,
        ffmpeg = Some (0%Z, stdout)
        /\ (2 * length audio = length stdout)%nat
        /\ Forall (fun s => -1 <= s <= 32767 / 32768) audio
  | None =>
      ffmpeg = None
      \/ exists returncode stdout,
           ffmpeg = Some (returncode, stdout)
           /\ (returncode <> 0%Z \/ Nat.even (length stdout) = false)
  end.
Proof.
  unfold capture_audio.
  destruct ffmpeg as [[returncode stdout] |]; [| now left].
  destruct (Z.eqb_spec returncode 0) as [-> | Hrc].
  - pose proof (frombuffer_int16_spec stdout) as H.
    destruct (frombuffer_int16 stdout) as [samples |].
    + destruct H as (_ & Hl & Hf).
      exists stdout. repeat split.
      * now rewrite length_map.
      * clear Hl. induction Hf as [| s l Hs _ IH]; cbn [map]; constructor.
        -- destruct Hs as [Hs1 Hs2]. apply IZR_le in Hs1, Hs2. lra.
        -- exact IH.
    + right. exists 0%Z, stdout. auto.
  - right. exists returncode, stdout. auto.
Qed.

(** X6: the level measured on a captured buffer never exceeds 1. *)
Theorem captured_level_at_most_one
    (ffmpeg : option (Z * list Byte.byte)) (audio : list R) :
  capture_audio ffmpeg = Some audio ->
  measure_rms audio <= 1.
Proof.
  intros H.
  assert (Hb : forall v, In v audio -> Rabs v <= 1).
  { unfold capture_audio in H.
    destruct ffmpeg as [[returncode stdout] |]; [| discriminate].
    destruct (returncode =? 0)%Z; [| discriminate].
    pose proof (frombuffer_int16_spec stdout) as Hs.
    destruct (frombuffer_int16 stdout) as [samples |]; [| discriminate].
    destruct Hs as (_ & _ & Hf). rewrite Forall_forall in Hf.
    injection H as <-.
    intros v Hv. apply in_map_iff in Hv as (s & <- & Hs).
    destruct (Hf s Hs) as [Hs1 Hs2]. apply IZR_le in Hs1, Hs2.
    apply Rabs_le. lra. }
  clear H.
  destruct audio as [| v x].
  - unfold measure_rms. simpl. lra.
  - rewrite measure_rms_nonempty by discriminate.
    set (n := INR (length (v :: x))).
    assert (Hn : 0 < n) by (apply length_pos_INR; discriminate).
    pose proof (sum_sq_bound 1 (v :: x) Hb) as Hsum. fold n in Hsum.
    rewrite <- sqrt_1. apply sqrt_le_1_alt.
    apply Rmult_le_reg_r with n; [exact Hn |].
    replace (sum_sq (v :: x) / n * n) with (sum_sq (v :: x))
      by (field; lra).
    lra.
Qed.

Lemma captured_level_at_most_one_witness :
  measure_rms [IZR (int16_of_bytes Byte.xff Byte.x7f) / 32768] <= 1.
Proof.
  apply (captured_level_at_most_one (Some (0%Z, [Byte.xff; Byte.x7f]))).
  reflexivity.
Defined.

(** ** Further properties of the control loop *)

Lemma actuator_gain_writes (gain : Z) (tr : list event) :
  actuator_gain gain tr = actuator_gain gain (filter is_sset tr).
Proof.
  unfold actuator_gain. revert gain.
  induction tr as [| e tr IH]; intros gain; [reflexivity |].
  destruct e; cbn [filter is_sset fold_left]; apply IH.
Qed.

Lemma gain_request_high (cfg : config) rms g :
  rms > NOISE_THRESHOLD_HIGH cfg ->
  gain_request cfg rms g = Some (g - IZR (GAIN_STEP_DB cfg)).
Proof.
  intros H. unfold gain_request.
  destruct (Rgt_dec rms (NOISE_THRESHOLD_HIGH cfg)); [reflexivity | lra].
Qed.

Lemma gain_request_low (cfg : config) rms g :
  ~ rms > NOISE_THRESHOLD_HIGH cfg ->
  rms < NOISE_THRESHOLD_LOW cfg ->
  gain_request cfg rms g = Some (g + IZR (GAIN_STEP_DB cfg)).
Proof.
  intros Hh Hl. unfold gain_request.
  destruct (Rgt_dec rms (NOISE_THRESHOLD_HIGH cfg)); [contradiction |].
  destruct (Rlt_dec rms (NOISE_THRESHOLD_LOW cfg)); [reflexivity | lra].
Qed.

(** The gain held by the actuator after one iteration that requested
    [gain + delta]. *)
Lemma closed_loop_step (cfg : config) (gain delta c : Z) rms :
  gain_request cfg rms (IZR gain) = Some (IZR (gain + delta)) ->
  actuator_gain gain
    (trace_of (control_step cfg rms c
       {| captured := None; amixer_sget := Some (IZR gain);
          amixer_sset_ok := true |}))
  = Z.max (Z.min (gain + delta) (MAX_GAIN_DB cfg)) (MIN_GAIN_DB cfg).
Proof.
  intros Hreq. rewrite actuator_gain_writes, control_step_writes.
  cbn [amixer_sget amixer_sset_ok]. rewrite Hreq, set_gain_db_IZR.
  reflexivity.
Qed.

(** X7: against an actuator that reports the gain last written, a run of
    [n] measurements above [NOISE_THRESHOLD_HIGH] lowers the gain by
    [GAIN_STEP_DB] per iteration until it rests at [MIN_GAIN_DB], and a run
    of [n] measurements below [NOISE_THRESHOLD_LOW] raises it by
    [GAIN_STEP_DB] per iteration until it rests at [MAX_GAIN_DB]. *)
Theorem closed_loop_ramp (cfg : config) (ms : list R) :
  (MIN_GAIN_DB cfg <= MAX_GAIN_DB cfg)%Z ->
  (0 <= GAIN_STEP_DB cfg)%Z ->
  NOISE_THRESHOLD_LOW cfg <= NOISE_THRESHOLD_HIGH cfg ->
  forall gain count,
    (MIN_GAIN_DB cfg <= gain <= MAX_GAIN_DB cfg)%Z ->
    (Forall (fun m => m > NOISE_THRESHOLD_HIGH cfg) ms ->
     closed_loop cfg gain count ms
     = Z.max (MIN_GAIN_DB cfg)
             (gain - GAIN_STEP_DB cfg * Z.of_nat (length ms))) /\
    (Forall (fun m => m < NOISE_THRESHOLD_LOW cfg) ms ->
     closed_loop cfg gain count ms
     = Z.min (MAX_GAIN_DB cfg)
             (gain + GAIN_STEP_DB cfg * Z.of_nat (length ms))).
Proof.
  intros Hb Hstep Hth.
  induction ms as [| m ms IH]; intros gain count Hg.
  - cbn [closed_loop length]. split; intros _; lia.
  - cbn [closed_loop].
    set (io := {| captured := None; amixer_sget := Some (IZR gain);
                  amixer_sset_ok := true |}).
    set (c' := match control_step cfg m count io with
               | Next c _ => c
               | Raised _ => count
               end).
    split; intros Hms; inversion Hms as [| ? ? Hm Hms']; subst.
    + unfold io. rewrite (closed_loop_step cfg gain (- GAIN_STEP_DB cfg)).
      * fold io.
        set (g' := Z.max (Z.min (gain + - GAIN_STEP_DB cfg) (MAX_GAIN_DB cfg))
                         (MIN_GAIN_DB cfg)).
        assert (Hg' : (MIN_GAIN_DB cfg <= g' <= MAX_GAIN_DB cfg)%Z)
          by (unfold g'; lia).
        rewrite (proj1 (IH g' c' Hg') Hms').
        unfold g'. cbn [length]. lia.
      * rewrite gain_request_high by exact Hm.
        f_equal. rewrite plus_IZR, opp_IZR. lra.
    + unfold io. rewrite (closed_loop_step cfg gain (GAIN_STEP_DB cfg)).
      * fold io.
        set (g' := Z.max (Z.min (gain + GAIN_STEP_DB cfg) (MAX_GAIN_DB cfg))
                         (MIN_GAIN_DB cfg)).
        assert (Hg' : (MIN_GAIN_DB cfg <= g' <= MAX_GAIN_DB cfg)%Z)
          by (unfold g'; lia).
        rewrite (proj2 (IH g' c' Hg') Hms').
        unfold g'. cbn [length]. lia.
      * rewrite gain_request_low by lra.
        f_equal. rewrite plus_IZR. lra.
Qed.

Lemma closed_loop_ramp_witness :
  closed_loop default_config 34 0 [1; 1; 1] = 30%Z.
Proof.
  assert (Hb : (MIN_GAIN_DB default_config <= MAX_GAIN_DB default_config)%Z)
    by (simpl; lia).
  assert (Hs : (0 <= GAIN_STEP_DB default_config)%Z) by (simpl; lia).
  assert (Ht : NOISE_THRESHOLD_LOW default_config
               <= NOISE_THRESHOLD_HIGH default_config) by (simpl; lra).
  assert (Hg : (MIN_GAIN_DB default_config <= 34
                <= MAX_GAIN_DB default_config)%Z) by (simpl; lia).
  assert (Hm : Forall (fun m => m > NOISE_THRESHOLD_HIGH default_config)
                      [1; 1; 1])
    by (repeat constructor; simpl; lra).
  exact (proj1 (closed_loop_ramp default_config [1; 1; 1] Hb Hs Ht 34%Z 0%Z Hg)
               Hm).
Defined.

Lemma no_signal_detection_events (cfg : config) rms count :
  filter is_sleep (snd (no_signal_detection cfg rms count)) = [].
Proof.
  unfold no_signal_detection.
  destruct (Rlt_dec rms (NO_SIGNAL_THRESHOLD cfg)); simpl; [| reflexivity].
  destruct (_ >=? _)%Z; reflexivity.
Qed.

Lemma control_step_next (cfg : config) rms count io :
  exists tr,
    control_step cfg rms count io
    = Next (fst (no_signal_detection cfg rms count)) tr
    /\ filter is_sleep tr = [Sleep (SLEEP_SECONDS cfg)]
    /\ (length (filter is_sset tr) <= 1)%nat.
Proof.
  pose proof (control_step_writes cfg rms count io) as Hw.
  pose proof (no_signal_detection_events cfg rms count) as Hs.
  unfold control_step in *.
  destruct (no_signal_detection cfg rms count) as [c ev]. cbn [fst snd] in *.
  destruct (amixer_sget io) as [g |]; eexists; (split; [reflexivity |]);
    cbn [trace_of] in Hw; rewrite Hw.
  - split.
    + rewrite !filter_app, Hs.
      destruct (gain_request cfg rms g); reflexivity.
    + destruct (gain_request cfg rms g); simpl; lia.
  - split; [| simpl; lia].
    rewrite filter_app, Hs. reflexivity.
Qed.

Lemma loop_body_cases (scipy : scipy_signal) (cfg : config) count io :
  loop_body scipy cfg count io = Raised []
  \/ exists c tr,
       loop_body scipy cfg count io = Next c tr
       /\ filter is_sleep tr = [Sleep (SLEEP_SECONDS cfg)]
       /\ (length (filter is_sset tr) <= 1)%nat
       /\ (0 <= count -> 0 <= c <= count + 1)%Z.
Proof.
  unfold loop_body.
  destruct (captured io) as [audio |].
  - destruct (length audio =? 0)%nat.
    + right. exists count, [Sleep (SLEEP_SECONDS cfg)].
      repeat split; simpl; lia.
    + destruct (bandpass_filter _ _ _ _ _ _) as [filtered |]; [| now left].
      right.
      destruct (control_step_next cfg (measure_rms filtered) count io)
        as (tr & -> & Hs & Hw).
      eexists _, tr. repeat split; try assumption;
        unfold no_signal_detection;
        destruct (Rlt_dec _ _); cbn [fst]; lia.
  - right. exists count, [Sleep (SLEEP_SECONDS cfg)].
    repeat split; simpl; lia.
Qed.

(** X8: the loop sleeps exactly once per completed iteration, always for
    [SLEEP_SECONDS], and runs at most one [amixer sset] per iteration; the
    counter it carries stays between 0 and the number of iterations when it
    starts at 0 as in [dynamic_gain_control]. *)
Theorem loop_cadence
    (scipy : scipy_signal) (cfg : config) (ios : list cycle_io) :
  forall count,
    let o := while_true scipy cfg count ios in
    (length (filter is_sset (trace_of o)) <= length ios)%nat /\
    (exists n, (n <= length ios)%nat
               /\ filter is_sleep (trace_of o)
                  = repeat (Sleep (SLEEP_SECONDS cfg)) n) /\
    (forall c tr, o = Next c tr ->
       filter is_sleep tr = repeat (Sleep (SLEEP_SECONDS cfg)) (length ios)
       /\ ((0 <= count)%Z ->
           (0 <= c <= count + Z.of_nat (length ios))%Z)).
Proof.
  induction ios as [| io ios IH]; intros count o; unfold o.
  - cbn [while_true trace_of filter length].
    split; [lia | split].
    + exists 0%nat. split; [lia | reflexivity].
    + intros c tr H. injection H as <- <-. split; [reflexivity | lia].
  - cbn [while_true].
    destruct (loop_body_cases scipy cfg count io)
      as [-> | (c1 & tr1 & -> & Hs1 & Hw1 & Hc1)].
    + cbn [trace_of filter length].
      split; [lia | split].
      * exists 0%nat. split; [lia | reflexivity].
      * discriminate.
    + specialize (IH c1). cbv zeta in IH.
      destruct IH as (Hw & (n & Hn & Hs) & Hnext).
      destruct (while_true scipy cfg c1 ios) as [c2 tr2 | tr2];
        cbn [trace_of] in *; rewrite !filter_app, !length_app, Hs1.
      * split; [cbn [length]; lia | split].
        -- exists (S n). split; [cbn [length]; lia |].
           rewrite Hs. reflexivity.
        -- intros c tr H. injection H as <- <-.
           destruct (Hnext c2 tr2 eq_refl) as [Hs2 Hc2].
           rewrite filter_app, Hs1, Hs2. split; [reflexivity |].
           intros H0. cbn [length]. lia.
      * split; [cbn [length]; lia | split].
        -- exists (S n). split; [cbn [length]; lia |].
           rewrite Hs. reflexivity.
        -- discriminate.
Qed.



(** X10: an iteration runs [amixer sset] or the no-signal action only
    after audio was captured; it runs [amixer sset] only if the current gain
    could also be read. *)
Theorem no_effect_without_inputs
    (scipy : scipy_signal) (cfg : config) (count : Z) (io : cycle_io) :
  let tr := trace_of (loop_body scipy cfg count io) in
  (existsb is_sset tr = true ->
   (exists audio, captured io = Some audio /\ audio <> [])
   /\ exists g, amixer_sget io = Some g) /\
  (existsb is_action tr = true ->
   exists audio, captured io = Some audio /\ audio <> []).
Proof.
  cbv zeta. unfold loop_body.
  destruct (captured io) as [[| a audio] |]; cbn [length Nat.eqb];
    try (split; discriminate).
  destruct (bandpass_filter _ _ _ _ _ _) as [filtered |];
    [| split; discriminate].
  assert (Hcap : exists x, Some (a :: audio) = Some x /\ x <> [])
    by (eexists; split; [reflexivity | discriminate]).
  split; intros H; [split |]; try exact Hcap.
  destruct (amixer_sget io) as [g |] eqn:Hg; [eauto |].
  exfalso.
  pose proof (control_step_writes cfg (measure_rms filtered) count io) as Hw.
  rewrite Hg in Hw.
  apply existsb_exists in H as (e & He & Hs).
  assert (Hin : In e (filter is_sset
                 (trace_of (control_step cfg (measure_rms filtered) count io))))
    by (apply filter_In; auto).
  rewrite Hw in Hin. exact Hin.
Qed.

Lemma no_effect_without_inputs_witness :
  exists g,
    amixer_sget {| captured := Some [1]; amixer_sget := Some 34;
                   amixer_sset_ok := true |} = Some g.
Proof.
  apply (proj1 (no_effect_without_inputs passthrough default_config 0
                  {| captured := Some [1]; amixer_sget := Some 34;
                     amixer_sset_ok := true |})).
  unfold loop_body. cbn [captured length Nat.eqb].
  unfold bandpass_filter, butter.
  cbn [butter_accepts default_config LOWCUT HIGHCUT SAMPLING_RATE
       FILTER_ORDER passthrough sosfilt butter_design].
  replace (butter_accepts 2000 8000 48000) with true by reflexivity.
  cbv iota.
  apply existsb_exists. exists (Amixer_sset "Line In 1 Gain" 31).
  split; [| reflexivity].
  assert (Hin : In (Amixer_sset "Line In 1 Gain" 31)
            (filter is_sset
               (trace_of (control_step default_config (measure_rms [1]) 0
                  {| captured := Some [1]; amixer_sget := Some 34;
                     amixer_sset_ok := true |})))).
  { rewrite control_step_writes. cbn [amixer_sget amixer_sset_ok].
    rewrite gain_request_high.
    - replace (34 - IZR (GAIN_STEP_DB default_config)) with (IZR 31)
        by (simpl; lra).
      rewrite set_gain_db_IZR. left. reflexivity.
    - rewrite measure_rms_nonempty by discriminate.
      unfold sum_sq. simpl.
      replace ((1 * 1 + 0) / 1) with 1 by lra. rewrite sqrt_1. lra. }
  apply filter_In in Hin. tauto.
Defined.

Lemma loop_cadence_witness :
  filter is_sleep [Sleep 10]
  = repeat (Sleep (SLEEP_SECONDS default_config)) 1.
Proof.
  apply (proj1 (proj2 (proj2 (loop_cadence passthrough default_config
           [ {| captured := None; amixer_sget := None;
                amixer_sset_ok := true |} ] 0%Z)) 0%Z [Sleep 10] eq_refl)).
Defined.

(** X11: when the no-signal threshold is not above the low noise
    threshold, a measurement below it also asks for more gain: the
    iteration increments the counter, runs the action first if the counter
    has reached its limit, then writes the raised gain and sleeps. *)
Theorem silence_raises_gain
    (cfg : config) (rms : R) (count : Z) (io : cycle_io) (g : R) :
  NO_SIGNAL_THRESHOLD cfg <= NOISE_THRESHOLD_LOW cfg ->
  NOISE_THRESHOLD_LOW cfg <= NOISE_THRESHOLD_HIGH cfg ->
  rms < NO_SIGNAL_THRESHOLD cfg ->
  amixer_sget io = Some g ->
  control_step cfg rms count io
  = Next (count + 1)
      ((if (count + 1 >=? NO_SIGNAL_COUNT_THRESHOLD cfg)%Z
        then [No_signal_action] else [])
       ++ snd (set_gain_db cfg (MICROPHONE_NAME cfg)
                 (g + IZR (GAIN_STEP_DB cfg)) (amixer_sset_ok io))
       ++ [Sleep (SLEEP_SECONDS cfg)]).
Proof.
  intros Hns Hth Hrms Hg. unfold control_step.
  rewrite no_signal_below by exact Hrms.
  rewrite Hg, gain_request_low by lra.
  reflexivity.
Qed.

Lemma silence_raises_gain_witness :
  control_step default_config 0 2
    {| captured := None; amixer_sget := Some 37; amixer_sset_ok := true |}
  = Next 3 ([No_signal_action]
            ++ snd (set_gain_db default_config "Line In 1 Gain"
                      (37 + IZR 3) true)
            ++ [Sleep 10]).
Proof.
  apply (silence_raises_gain default_config 0 2
           {| captured := None; amixer_sget := Some 37;
              amixer_sset_ok := true |} 37).
  - simpl. lra.
  - simpl. lra.
  - simpl. lra.
  - reflexivity.
Defined.

(** ** Further properties of the calibration *)

Lemma pow10_plus (x y : R) : pow10 (x + y) = pow10 x * pow10 y.
Proof. unfold pow10. apply Rpower_plus. Qed.

Lemma pow10_opp (x : R) : pow10 (- x) = / pow10 x.
Proof. unfold pow10. apply Rpower_Ropp. Qed.

Lemma full_scale_ratio (c s : R) :
  REFERENCE_PRESSURE * pow10 (c / 20) * pow10 (s / 20) / def_full_scale
  = pow10 ((c - DEFAULT_CLIPPING + (s - DEFAULT_SENSITIVITY)) / 20).
Proof.
  unfold def_full_scale.
  replace ((c - DEFAULT_CLIPPING + (s - DEFAULT_SENSITIVITY)) / 20)
    with (c / 20 + s / 20
          + - (DEFAULT_CLIPPING / 20 + DEFAULT_SENSITIVITY / 20)) by lra.
  rewrite !pow10_plus, pow10_opp, pow10_plus.
  pose proof (pow10_pos (DEFAULT_CLIPPING / 20)) as H1.
  pose proof (pow10_pos (DEFAULT_SENSITIVITY / 20)) as H2.
  unfold REFERENCE_PRESSURE. field. lra.
Qed.

(** X12: each proposed threshold is the configured one times
    [snr / DEFAULT_SNR] times ten to the power of a twentieth of the change
    in clipping level plus the change in sensitivity; the thresholds depend
    on clipping and sensitivity only through their sum. *)
Theorem calibration_closed_form (cfg : config) (p : mic_params) :
  let pr := calibrate_and_propose cfg p in
  let headroom :=
    clipping p - DEFAULT_CLIPPING + (sensitivity p - DEFAULT_SENSITIVITY) in
  noise_threshold_high pr
  = NOISE_THRESHOLD_HIGH cfg * (snr p / DEFAULT_SNR) * pow10 (headroom / 20)
  /\
  noise_threshold_low pr
  = NOISE_THRESHOLD_LOW cfg * (snr p / DEFAULT_SNR) * pow10 (headroom / 20).
Proof.
  cbv zeta. unfold calibrate_and_propose.
  cbn [noise_threshold_high noise_threshold_low].
  rewrite <- (full_scale_ratio (clipping p) (sensitivity p)).
  pose proof def_full_scale_pos as Hd.
  split; field; unfold DEFAULT_SNR; lra.
Qed.

(** X13: a signal-to-noise ratio that is zero or negative is not rejected:
    with configured thresholds [0 <= low < high], the proposed high
    threshold is then at most 0 and not above the proposed low one. *)
Theorem calibration_nonpositive_snr (cfg : config) (p : mic_params) :
  0 <= NOISE_THRESHOLD_LOW cfg < NOISE_THRESHOLD_HIGH cfg ->
  snr p <= 0 ->
  let pr := calibrate_and_propose cfg p in
  noise_threshold_high pr <= 0 /\
  noise_threshold_high pr <= noise_threshold_low pr.
Proof.
  intros [Hl Hh] Hsnr. cbv zeta. unfold calibrate_and_propose.
  cbn [noise_threshold_high noise_threshold_low].
  pose proof def_full_scale_pos as Hd.
  pose proof (full_scale_pos (clipping p) (sensitivity p)) as Hu.
  set (u := REFERENCE_PRESSURE * pow10 (clipping p / 20)
            * pow10 (sensitivity p / 20)) in *.
  assert (Hk : 0 < / def_full_scale * u).
  { apply Rmult_lt_0_compat; [now apply Rinv_0_lt_compat | exact Hu]. }
  assert (Hr : snr p / DEFAULT_SNR <= 0).
  { unfold DEFAULT_SNR. lra. }
  set (k := / def_full_scale * u) in *.
  set (r := snr p / DEFAULT_SNR) in *.
  replace (NOISE_THRESHOLD_HIGH cfg / def_full_scale * u * r)
    with (NOISE_THRESHOLD_HIGH cfg * (k * r)) by (unfold k, Rdiv; ring).
  replace (NOISE_THRESHOLD_LOW cfg / def_full_scale * u * r)
    with (NOISE_THRESHOLD_LOW cfg * (k * r)) by (unfold k, Rdiv; ring).
  assert (Hkr : k * r <= 0) by nra.
  split; nra.
Qed.

Lemma calibration_nonpositive_snr_witness :
  noise_threshold_high
    (calibrate_and_propose default_config
       {| snr := 0; self_noise := 14; clipping := 120; sensitivity := -28 |})
  <= 0.
Proof.
  apply (calibration_nonpositive_snr default_config
           {| snr := 0; self_noise := 14; clipping := 120;
              sensitivity := -28 |}).
  - simpl. lra.
  - simpl. lra.
Defined.

Lemma Int_part_plus_IZR (x : R) (n : Z) :
  Int_part (x + IZR n) = (Int_part x + n)%Z.
Proof.
  symmetry. apply Int_part_spec.
  destruct (base_Int_part x) as [H1 H2]. rewrite plus_IZR. lra.
Qed.

Lemma py_round_plus_even (x : R) (k : Z) :
  py_round (x + IZR (2 * k)) = (py_round x + 2 * k)%Z.
Proof.
  unfold py_round. rewrite Int_part_plus_IZR.
  replace (x + IZR (2 * k) - IZR (Int_part x + 2 * k))
    with (x - IZR (Int_part x)) by (rewrite plus_IZR; lra).
  rewrite Z.even_add_mul_2.
  destruct (Rlt_dec (x - IZR (Int_part x)) (1 / 2)); [reflexivity |].
  destruct (Rlt_dec (1 / 2) (x - IZR (Int_part x))); [lia |].
  destruct (Z.even (Int_part x)); lia.
Qed.

Lemma py_round_monotone (x y : R) : x <= y -> (py_round x <= py_round y)%Z.
Proof.
  intros Hxy.
  destruct (Z.le_gt_cases (py_round x) (py_round y)) as [H | H];
    [exact H | exfalso].
  pose proof (py_round_near x) as Hx.
  pose proof (py_round_near y) as Hy.
  assert (H1 : IZR (py_round y) + 1 <= IZR (py_round x)).
  { rewrite <- (plus_IZR _ 1). apply IZR_le. lia. }
  assert (Heq : x = y) by lra.
  subst y. lia.
Qed.

(** X14: when the configured gain bounds are an even number of decibels
    apart, the whole-decibel bounds prepared for the script are exactly as
    far apart, whatever the microphone. *)
Theorem persisted_gain_gap (cfg : config) (p : mic_params) :
  Z.even (MAX_GAIN_DB cfg - MIN_GAIN_DB cfg) = true ->
  let s := persist_calibration_to_script (calibrate_and_propose cfg p) in
  (subs_MAX_GAIN_DB s - subs_MIN_GAIN_DB s
   = MAX_GAIN_DB cfg - MIN_GAIN_DB cfg)%Z.
Proof.
  intros He. cbv zeta.
  unfold persist_calibration_to_script, calibrate_and_propose.
  cbn [subs_MAX_GAIN_DB subs_MIN_GAIN_DB max_gain_db min_gain_db].
  apply Zeven_bool_iff, Zeven_ex_iff in He as [k Hk]. 
  set (off := DEFAULT_SENSITIVITY - sensitivity p).
  replace (IZR (MAX_GAIN_DB cfg) + off)
    with (IZR (MIN_GAIN_DB cfg) + off + IZR (2 * k)).
  - rewrite py_round_plus_even. lia.
  - rewrite <- Hk, minus_IZR. lra.
Qed.

Lemma persisted_gain_gap_witness :
  (subs_MAX_GAIN_DB
     (persist_calibration_to_script
        (calibrate_and_propose default_config half_db_mic))
   - subs_MIN_GAIN_DB
       (persist_calibration_to_script
          (calibrate_and_propose default_config half_db_mic))
   = 8)%Z.
Proof.
  apply (persisted_gain_gap default_config half_db_mic). reflexivity.
Defined.

(** X15: preparing the values for the script keeps the thresholds in
    order, though not strictly, and keeps the gain bounds in order; a
    threshold that is not negative is not written as a negative number. *)
Theorem persisted_order (pr : proposal) :
  let s := persist_calibration_to_script pr in
  (noise_threshold_low pr <= noise_threshold_high pr ->
   subs_NOISE_THRESHOLD_LOW s <= subs_NOISE_THRESHOLD_HIGH s) /\
  (min_gain_db pr <= max_gain_db pr ->
   (subs_MIN_GAIN_DB s <= subs_MAX_GAIN_DB s)%Z) /\
  (0 <= noise_threshold_low pr -> 0 <= subs_NOISE_THRESHOLD_LOW s).
Proof.
  cbv zeta. unfold persist_calibration_to_script.
  cbn [subs_NOISE_THRESHOLD_LOW subs_NOISE_THRESHOLD_HIGH
       subs_MIN_GAIN_DB subs_MAX_GAIN_DB].
  unfold format_7f.
  split; [| split].
  - intros H.
    assert (Hm : (py_round (noise_threshold_low pr * 10000000)
                  <= py_round (noise_threshold_high pr * 10000000))%Z)
      by (apply py_round_monotone; lra).
    apply IZR_le in Hm. lra.
  - apply py_round_monotone.
  - intros H.
    assert (Hm : (py_round 0 <= py_round (noise_threshold_low pr * 10000000))%Z)
      by (apply py_round_monotone; lra).
    rewrite (py_round_IZR 0) in Hm. apply IZR_le in Hm. lra.
Qed.

Lemma persisted_order_witness :
  subs_NOISE_THRESHOLD_LOW
    (persist_calibration_to_script
       {| noise_threshold_high := 1 / 100; noise_threshold_low := 1 / 1000;
          min_gain_db := 30; max_gain_db := 38 |})
  <= subs_NOISE_THRESHOLD_HIGH
       (persist_calibration_to_script
          {| noise_threshold_high := 1 / 100; noise_threshold_low := 1 / 1000;
             min_gain_db := 30; max_gain_db := 38 |}).
Proof.
  apply (proj1 (persisted_order
                  {| noise_threshold_high := 1 / 100;
                     noise_threshold_low := 1 / 1000;
                     min_gain_db := 30; max_gain_db := 38 |})).
  simpl. lra.
Defined.

(** ** Reading the gain *)

Lemma append_assoc (a b c : string) :
  ((a ++ b) ++ c = a ++ (b ++ c))%string.
Proof.
  induction a as [| x a IH]; simpl; [reflexivity | now rewrite IH].
Qed.

Lemma span_digits_app (x t : string) :
  digits_stop t ->
  span_digits (x ++ t)
  = (fst (span_digits x), (snd (span_digits x) ++ t)%string).
Proof.
  intros Ht. induction x as [| c x IH]; simpl.
  - destruct t as [| c t]; [reflexivity |].
    simpl in Ht. simpl. now rewrite Ht.
  - destruct (is_digit c); [| reflexivity].
    rewrite IH. destruct (span_digits x). reflexivity.
Qed.

Lemma span_all_digits (ip : string) :
  all_digits ip = true -> snd (span_digits ip) = EmptyString.
Proof.
  induction ip as [| c ip IH]; simpl; [reflexivity |].
  intros H. apply andb_true_iff in H as [Hc Hip]. rewrite Hc.
  specialize (IH Hip). destruct (span_digits ip). exact IH.
Qed.

Lemma span_digits_number (ip t : string) :
  all_digits ip = true -> digits_stop t ->
  span_digits (ip ++ t) = (fst (span_digits ip), t).
Proof.
  intros Hip Ht. rewrite span_digits_app by exact Ht.
  now rewrite span_all_digits.
Qed.

Lemma span_digits_nonempty (ip : string) :
  all_digits ip = true -> ip <> EmptyString ->
  exists d ds, fst (span_digits ip) = d :: ds.
Proof.
  destruct ip as [| c ip]; [contradiction |]. simpl.
  intros H _. apply andb_true_iff in H as [Hc _]. rewrite Hc.
  destruct (span_digits ip). simpl. eauto.
Qed.

Lemma span_digits_rest_B (x : string) :
  has_B (snd (span_digits x)) = true -> has_B x = true.
Proof.
  induction x as [| c x IH]; simpl; [trivial |].
  destruct (is_digit c); [| trivial].
  destruct (span_digits x) as [ds r]. simpl in *.
  intros H. rewrite (IH H). apply orb_true_r.
Qed.

Lemma bracket_digits_stop (t : string) : bracket_or_empty t -> digits_stop t.
Proof.
  destruct t as [| c t]; simpl; [trivial | now intros ->].
Qed.

Lemma starts_with_dB_app (r t : string) :
  bracket_or_empty t ->
  starts_with_dB (r ++ t) = true -> has_B r = true.
Proof.
  intros Ht H.
  destruct r as [| c1 [| c2 r]]; simpl in *.
  - destruct t as [| c t]; [discriminate |]. simpl in Ht. subst c.
    destruct t as [| ? [| ? ?]]; discriminate.
  - destruct t as [| c t]; [discriminate |]. simpl in Ht. subst c.
    destruct t; [discriminate |].
    rewrite andb_false_r in H. discriminate.
  - destruct (r ++ t)%string; [discriminate |].
    apply andb_true_iff in H as [H _].
    apply andb_true_iff in H as [_ H]. rewrite H. apply orb_true_r.
Qed.

(** A match that starts before [t] ends before [t], on the letters dB. *)
Lemma match_gain_needs_B (c : ascii) (b t : string) :
  bracket_or_empty t ->
  match_gain (String c (b ++ t)) <> None -> has_B b = true.
Proof.
  intros Ht H. cbn [match_gain] in H.
  destruct (c =? "[")%char; [| contradiction].
  assert (Hx : exists neg x,
             (match (b ++ t)%string with
              | String c1 t0 =>
                  if (c1 =? "-")%char then (true, t0) else (false, (b ++ t)%string)
              | EmptyString => (false, (b ++ t)%string)
              end) = (neg, (x ++ t)%string)
             /\ (has_B x = true -> has_B b = true)).
  { destruct b as [| c1 b']; simpl.
    - exists false, EmptyString. simpl.
      destruct t as [| c1 t']; [auto |].
      simpl in Ht. subst c1. simpl. auto.
    - destruct (c1 =? "-")%char.
      + exists true, b'. split; [reflexivity |].
        intros ->. apply orb_true_r.
      + exists false, (String c1 b'). split; [reflexivity | trivial]. }
  destruct Hx as (neg & x & Hs & Hxb). rewrite Hs in H. clear Hs.
  apply Hxb.
  rewrite span_digits_app in H by now apply bracket_digits_stop.
  apply span_digits_rest_B.
  destruct (span_digits x) as [ds r]. cbn [fst snd] in *.
  destruct ds as [| d ds]; [contradiction |].
  destruct (starts_with_dB (r ++ t)) eqn:Hdb;
    [now apply (starts_with_dB_app r t) |].
  destruct r as [| c3 r']; simpl in H.
  - destruct t as [| c3 t']; [contradiction |].
    simpl in Ht. subst c3. simpl in H. contradiction.
  - destruct (c3 =? ".")%char; [| contradiction].
    rewrite span_digits_app in H by now apply bracket_digits_stop.
    destruct (span_digits r') as [fs r2] eqn:Hr2. cbn [fst snd] in H.
    destruct fs as [| f fs]; [contradiction |].
    destruct (starts_with_dB (r2 ++ t)) eqn:Hdb2; [| contradiction].
    simpl. rewrite (span_digits_rest_B r').
    + apply orb_true_r.
    + rewrite Hr2. now apply (starts_with_dB_app r2 t).
Qed.

Lemma re_search_skip (pre t : string) :
  has_B pre = false -> bracket_or_empty t ->
  re_search (pre ++ t) = re_search t.
Proof.
  intros Hpre Ht. induction pre as [| c pre IH]; [reflexivity |].
  simpl in Hpre. apply orb_false_iff in Hpre as [_ Hpre].
  change (String c pre ++ t)%string with (String c (pre ++ t)).
  cbn [re_search].
  destruct (match_gain (String c (pre ++ t))) eqn:Hm.
  - assert (Hb : has_B pre = true)
      by (apply (match_gain_needs_B c pre t Ht); rewrite Hm; discriminate).
    congruence.
  - now apply IH.
Qed.

Lemma match_gain_number (neg : bool) (ip fp post : string) :
  all_digits ip = true -> ip <> EmptyString -> all_digits fp = true ->
  match_gain ("[" ++ number_text neg ip fp ++ "dB]" ++ post)
  = Some (float_of_match neg (fst (span_digits ip)) (fst (span_digits fp))).
Proof.
  intros Hip Hne Hfp.
  set (tail := ("dB]" ++ post)%string).
  set (frac := match fp with
               | EmptyString => EmptyString
               | _ => ("." ++ fp)%string
               end).
  assert (Hnum : (number_text neg ip fp ++ tail
                  = (if neg then "-" else "") ++ ip ++ frac ++ tail)%string).
  { unfold number_text. fold frac. now rewrite !append_assoc. }
  rewrite Hnum.
  assert (Hstop : digits_stop (frac ++ tail)).
  { unfold frac, tail. destruct fp; reflexivity. }
  destruct (span_digits_nonempty ip Hip Hne) as (d & ds & Hds).
  assert (Hsign :
            (match ((if neg then "-" else "") ++ ip ++ frac ++ tail)%string with
             | String c1 t =>
                 if (c1 =? "-")%char then (true, t)
                 else (false,
                       ((if neg then "-" else "") ++ ip ++ frac ++ tail)%string)
             | EmptyString =>
                 (false, ((if neg then "-" else "") ++ ip ++ frac ++ tail)%string)
             end) = (neg, (ip ++ frac ++ tail)%string)).
  { destruct neg; [reflexivity |].
    destruct ip as [| c ip']; [contradiction |]. simpl.
    simpl in Hip. apply andb_true_iff in Hip as [Hc _].
    destruct (Ascii.eqb_spec c "-") as [-> | _]; [discriminate | reflexivity]. }
  change ("[" ++ ?s)%string with (String "[" s).
  cbn [match_gain]. rewrite Ascii.eqb_refl, Hsign.
  rewrite span_digits_number by assumption. rewrite Hds.
  unfold frac. destruct fp as [| c fp'].
  - reflexivity.
  - change (("." ++ String c fp') ++ tail)%string
      with (String "." (String c fp' ++ tail)).
    cbv iota. rewrite Ascii.eqb_refl.
    rewrite span_digits_number by (assumption || reflexivity).
    destruct (span_digits_nonempty (String c fp') Hfp ltac:(discriminate))
      as (f & fs & Hfs).
    rewrite Hfs. reflexivity.
Qed.

Lemma re_search_match (s : string) (v : R) :
  match_gain s = Some v -> re_search s = Some v.
Proof.
  intros H. destruct s; cbn [re_search]; now rewrite H.
Qed.

(** X16: [get_gain_db] returns the first number written as [[<n>dB]]: for
    a text in which the letter B does not occur before that field, the
    result is the value of the number, whatever follows the field. *)
Theorem get_gain_db_first_field
    (pre post : string) (neg : bool) (ip fp : string) :
  has_B pre = false ->
  all_digits ip = true -> ip <> EmptyString -> all_digits fp = true ->
  get_gain_db
    (Some (pre ++ "[" ++ number_text neg ip fp ++ "dB]" ++ post)%string)
  = Some (float_of_match neg (fst (span_digits ip)) (fst (span_digits fp))).
Proof.
  intros Hpre Hip Hne Hfp. unfold get_gain_db.
  rewrite re_search_skip by (exact Hpre || reflexivity).
  apply re_search_match. now apply match_gain_number.
Qed.

Lemma get_gain_db_first_field_witness :
  get_gain_db (Some "  Mono: Capture 34 [49%] [34.00dB] [on]"%string)
  = Some (float_of_match false [3; 4]%Z [0; 0]%Z)
  /\ float_of_match false [3; 4]%Z [0; 0]%Z = 34.
Proof.
  split.
  - apply (get_gain_db_first_field "  Mono: Capture 34 [49%] " " [on]"
             false "34" "00"); (reflexivity || discriminate).
  - unfold float_of_match, decimal_value. simpl. lra.
Defined.

Lemma append_nil_r (s : string) : (s ++ "")%string = s.
Proof.
  induction s as [| c s IH]; simpl; [reflexivity | now rewrite IH].
Qed.

(** X17: when the letter B does not occur in what amixer printed, there is
    no decibel field to read and [get_gain_db] returns [None]. *)
Theorem get_gain_db_no_field (output : string) :
  has_B output = false -> get_gain_db (Some output) = None.
Proof.
  intros H. unfold get_gain_db.
  rewrite <- (append_nil_r output).
  rewrite re_search_skip by (exact H || exact I).
  reflexivity.
Qed.

Lemma get_gain_db_no_field_witness :
  get_gain_db (Some "amixer: Unable to find simple control"%string) = None.
Proof.
  apply get_gain_db_no_field. reflexivity.
Defined.

(** ** Further properties of [set_gain_db] *)

Lemma set_gain_db_inverted (cfg : config) mic (g : R) ok :
  (MAX_GAIN_DB cfg <= MIN_GAIN_DB cfg)%Z ->
  snd (set_gain_db cfg mic g ok) = [Amixer_sset mic (MIN_GAIN_DB cfg)].
Proof.
  intros H. apply IZR_le in H. unfold set_gain_db. simpl.
  rewrite Rmax_right.
  - now rewrite py_int_IZR.
  - apply Rle_trans with (IZR (MAX_GAIN_DB cfg)); [apply Rmin_r | exact H].
Qed.

(** X18: writing back the gain that [set_gain_db] wrote writes the same
    gain again, and a whole gain within the bounds is written unchanged. *)
Theorem set_gain_db_idempotent (cfg : config) mic (g : R) ok (v : Z) :
  snd (set_gain_db cfg mic g ok) = [Amixer_sset mic v] ->
  snd (set_gain_db cfg mic (IZR v) ok) = [Amixer_sset mic v] /\
  (forall z, (MIN_GAIN_DB cfg <= z <= MAX_GAIN_DB cfg)%Z ->
             snd (set_gain_db cfg mic (IZR z) ok) = [Amixer_sset mic z]).
Proof.
  intros H. split.
  - rewrite set_gain_db_IZR. do 2 f_equal.
    destruct (Z.le_gt_cases (MIN_GAIN_DB cfg) (MAX_GAIN_DB cfg)) as [Hb | Hb].
    + pose proof (set_gain_db_in_range cfg mic g ok Hb) as Hr.
      rewrite H in Hr. inversion Hr as [| ? ? Hv _]; subst.
      unfold gain_in_range in Hv. lia.
    + rewrite set_gain_db_inverted in H by lia.
      injection H as <-. lia.
  - intros z Hz. rewrite set_gain_db_IZR. do 2 f_equal. lia.
Qed.

Lemma set_gain_db_idempotent_witness :
  snd (set_gain_db default_config "Line In 1 Gain" (IZR 38) true)
  = [Amixer_sset "Line In 1 Gain" 38].
Proof.
  refine (proj1 (set_gain_db_idempotent default_config "Line In 1 Gain"
                   40 true 38 _)).
  apply set_gain_db_above.
  - simpl. lia.
  - simpl. lra.
Defined.

(** X19: with bounds the wrong way round, [MAX_GAIN_DB < MIN_GAIN_DB],
    every gain is written as [MIN_GAIN_DB]: the whole run of
    [dynamic_gain_control] writes nothing else. *)
Theorem inverted_bounds_write_min
    (scipy : scipy_signal) (cfg : config) (ok : bool) (ios : list cycle_io) :
  (MAX_GAIN_DB cfg < MIN_GAIN_DB cfg)%Z ->
  forall mic v,
    In (Amixer_sset mic v)
       (trace_of (dynamic_gain_control scipy cfg ok ios)) ->
    v = MIN_GAIN_DB cfg.
Proof.
  intros Hinv.
  assert (Hset : forall mic g b e,
             In e (snd (set_gain_db cfg mic g b)) ->
             e = Amixer_sset mic (MIN_GAIN_DB cfg)).
  { intros mic g b e He.
    rewrite set_gain_db_inverted in He by lia.
    destruct He as [<- | []]. reflexivity. }
  assert (Hbody : forall count io mic v,
             In (Amixer_sset mic v)
                (trace_of (loop_body scipy cfg count io)) ->
             v = MIN_GAIN_DB cfg).
  { intros count io mic v Hin.
    assert (Hf : In (Amixer_sset mic v)
                    (filter is_sset (trace_of (loop_body scipy cfg count io))))
      by (apply filter_In; auto).
    clear Hin. unfold loop_body in Hf.
    destruct (captured io) as [[| a audio] |]; cbn [length Nat.eqb] in Hf;
      try contradiction.
    destruct (bandpass_filter _ _ _ _ _ _) as [filtered |];
      [| contradiction].
    rewrite control_step_writes in Hf.
    destruct (amixer_sget io) as [g |]; [| contradiction].
    destruct (gain_request cfg (measure_rms filtered) g); [| contradiction].
    apply Hset in Hf. now injection Hf. }
  assert (Hloop : forall count mic v,
             In (Amixer_sset mic v)
                (trace_of (while_true scipy cfg count ios)) ->
             v = MIN_GAIN_DB cfg).
  { induction ios as [| io ios IH]; intros count mic v Hin;
      cbn [while_true] in Hin; [contradiction |].
    pose proof (Hbody count io mic v) as Hb.
    destruct (loop_body scipy cfg count io) as [c tr | tr];
      cbn [trace_of] in *; [| now apply Hb].
    specialize (IH c mic v).
    destruct (while_true scipy cfg c ios); cbn [trace_of] in *;
      apply in_app_or in Hin as [Hin | Hin]; auto. }
  intros mic v Hin. unfold dynamic_gain_control in Hin.
  assert (Hin' : In (Amixer_sset mic v)
             (snd (set_gain_db cfg (MICROPHONE_NAME cfg)
                     (IZR ((MIN_GAIN_DB cfg + MAX_GAIN_DB cfg) / 2)) ok)
              ++ trace_of (while_true scipy cfg 0 ios)))
    by (destruct (while_true scipy cfg 0 ios); exact Hin).
  apply in_app_or in Hin' as [Hs | Hl].
  - apply Hset in Hs. now injection Hs.
  - exact (Hloop 0%Z mic v Hl).
Qed.

Lemma inverted_bounds_write_min_witness :
  Z.max (Z.min ((38 + 30) / 2) 30) 38 = MIN_GAIN_DB inverted_bounds.
Proof.
  apply (inverted_bounds_write_min passthrough inverted_bounds true []
           ltac:(simpl; lia) "Line In 1 Gain"%string).
  rewrite dynamic_gain_control_trace. left. reflexivity.
Defined.

(** ** Interactive prompts *)

Lemma prompt_float_refused (py : builtins) (d : R) line rest :
  refused py line ->
  prompt_float py d (line :: rest) = prompt_float py d rest.
Proof.
  intros [Hne Hf]. cbn [prompt_float].
  destruct (String.eqb_spec (str_strip py line) ""); [contradiction |].
  now rewrite Hf.
Qed.

Lemma prompt_float_accepted (py : builtins) (d : R) line rest v :
  accepted py d line v ->
  prompt_float py d (line :: rest) = Some (v, rest).
Proof.
  intros [[He ->] | [Hne Hf]]; cbn [prompt_float].
  - rewrite He. reflexivity.
  - destruct (String.eqb_spec (str_strip py line) ""); [contradiction |].
    now rewrite Hf.
Qed.

(** X20: [prompt_float] skips every line that is neither blank nor a
    number and answers with the first line that is: the default for a
    blank line, the number otherwise.  It consumes exactly the lines up to
    that one, and gives no answer exactly when every line is refused. *)
Theorem prompt_float_first_accepted
    (py : builtins) (d : R) (lines : list string) :
  (forall v rest,
      prompt_float py d lines = Some (v, rest)
      <-> exists bad line,
            lines = bad ++ line :: rest
            /\ Forall (refused py) bad
            /\ accepted py d line v) /\
  (prompt_float py d lines = None <-> Forall (refused py) lines).
Proof.
  induction lines as [| line lines [IHs IHn]].
  - split.
    + intros v rest. split; [discriminate |].
      intros (bad & l & H & _). destruct bad; discriminate.
    + split; [constructor | reflexivity].
  - assert (Hcase : refused py line \/ exists v, accepted py d line v).
    { unfold refused, accepted.
      destruct (String.eqb_spec (str_strip py line) "") as [He | Hne].
      - right. exists d. now left.
      - destruct (py_float py (str_strip py line)) as [v |] eqn:Hf.
        + right. exists v. now right.
        + now left. }
    destruct Hcase as [Hr | [v0 Ha]].
    + rewrite prompt_float_refused by exact Hr. split.
      * intros v rest. rewrite IHs. split.
        -- intros (bad & l & -> & Hb & Hl).
           exists (line :: bad), l. repeat split; auto.
        -- intros (bad & l & Heq & Hb & Hl).
           destruct bad as [| b bad].
           ++ simpl in Heq. injection Heq as <- <-.
              destruct Hr as [Hne Hf].
              destruct Hl as [[He _] | [_ Hf']]; congruence.
           ++ simpl in Heq. injection Heq as <- ->.
              inversion Hb; subst. eauto.
      * rewrite IHn. split.
        -- intros H. now constructor.
        -- intros H. now inversion H.
    + rewrite (prompt_float_accepted py d line lines v0 Ha). split.
      * intros v rest. split.
        -- intros H. injection H as <- <-.
           exists [], line. repeat split; auto.
        -- intros (bad & l & Heq & Hb & Hl).
           destruct bad as [| b bad].
           ++ simpl in Heq. injection Heq as <- <-.
              f_equal. f_equal.
              destruct Ha as [[He ->] | [Hne Hf]];
                destruct Hl as [[He' ->] | [Hne' Hf']]; congruence.
           ++ simpl in Heq. injection Heq as <- ->.
              inversion Hb as [| ? ? [Hne Hf] _]; subst.
              destruct Ha as [[He _] | [_ Hf']]; congruence.
      * split; [discriminate |].
        intros H. inversion H as [| ? ? [Hne Hf] _]; subst.
        destruct Ha as [[He _] | [_ Hf']]; congruence.
Qed.

Lemma calibrate_default_mic (cfg : config) :
  calibrate_and_propose cfg default_mic_params
  = {| noise_threshold_high := NOISE_THRESHOLD_HIGH cfg;
       noise_threshold_low := NOISE_THRESHOLD_LOW cfg;
       min_gain_db := IZR (MIN_GAIN_DB cfg);
       max_gain_db := IZR (MAX_GAIN_DB cfg) |}.
Proof.
  pose proof def_full_scale_pos as Hfs.
  unfold calibrate_and_propose.
  cbn [snr clipping sensitivity default_mic_params].
  fold def_full_scale.
  f_equal; unfold DEFAULT_SNR, DEFAULT_SENSITIVITY; try lra; field; lra.
Qed.

(** X21: answering the four prompts with blank lines gives the default
    microphone, and calibrating with it proposes exactly the configured
    thresholds and gain bounds, whatever the configuration. *)
Theorem blank_answers_keep_configuration
    (py : builtins) (cfg : config) (l1 l2 l3 l4 : string)
    (rest : list string) :
  str_strip py l1 = EmptyString -> str_strip py l2 = EmptyString ->
  str_strip py l3 = EmptyString -> str_strip py l4 = EmptyString ->
  interactive_calibration py (l1 :: l2 :: l3 :: l4 :: rest)
  = Some (default_mic_params, rest) /\
  calibrate_and_propose cfg default_mic_params
  = {| noise_threshold_high := NOISE_THRESHOLD_HIGH cfg;
       noise_threshold_low := NOISE_THRESHOLD_LOW cfg;
       min_gain_db := IZR (MIN_GAIN_DB cfg);
       max_gain_db := IZR (MAX_GAIN_DB cfg) |}.
Proof.
  intros H1 H2 H3 H4. split; [| apply calibrate_default_mic].
  unfold interactive_calibration.
  rewrite (prompt_float_accepted py _ l1 _ DEFAULT_SNR) by (left; auto).
  rewrite (prompt_float_accepted py _ l2 _ DEFAULT_SELF_NOISE)
    by (left; auto).
  rewrite (prompt_float_accepted py _ l3 _ DEFAULT_CLIPPING) by (left; auto).
  rewrite (prompt_float_accepted py _ l4 _ DEFAULT_SENSITIVITY)
    by (left; auto).
  reflexivity.
Qed.

Lemma blank_answers_keep_configuration_witness :
  interactive_calibration
    {| str_strip := fun s => s; py_float := fun _ => None |}
    [""; ""; ""; ""; "y"]%string
  = Some (default_mic_params, ["y"%string]).
Proof.
  apply (blank_answers_keep_configuration
           {| str_strip := fun s => s; py_float := fun _ => None |}
           default_config "" "" "" "" ["y"%string]); reflexivity.
Defined.

(** ** Test mode *)

Lemma consecutive_snoc (start : Z) (n : nat) :
  consecutive start (S n)
  = consecutive start n ++ [(start + Z.of_nat n)%Z].
Proof.
  unfold consecutive. rewrite seq_S, map_app. reflexivity.
Qed.

Lemma consecutive_cons (start : Z) (n : nat) :
  consecutive start (S n) = start :: consecutive (start + 1) n.
Proof.
  unfold consecutive. cbn [seq map]. f_equal.
  - lia.
  - rewrite <- seq_shift, map_map. apply map_ext. intros k. lia.
Qed.

Lemma consecutive_length (start : Z) (n : nat) :
  length (consecutive start n) = n.
Proof. unfold consecutive. now rewrite length_map, length_seq. Qed.

(** X22: the graph window of [test_mode] stays well formed: from the
    start and after every iteration there are as many iteration numbers as
    levels, never more than [max_points], and the numbers are the
    consecutive ones that end just before [i]. *)
Theorem test_mode_window
    (scipy : scipy_signal) (cfg : config) (st : test_state)
    (audio : option (list R)) :
  window_ok test_mode_start /\
  (window_ok st ->
   forall st' shown,
     test_mode_body scipy cfg st audio = Test_next st' shown ->
     window_ok st').
Proof.
  split.
  - unfold window_ok, test_mode_start, max_points. simpl.
    repeat split; lia.
  - intros (Hlen & Hmax & Hit) st' shown H.
    unfold test_mode_body in H.
    destruct audio as [a |];
      [| injection H as <- _; repeat split; assumption].
    destruct (length a =? 0)%nat;
      [injection H as <- _; repeat split; assumption |].
    destruct (bandpass_filter _ _ _ _ _ _) as [filtered |]; [| discriminate].
    set (n := length (iterations st)) in *.
    assert (Hnew : iterations st ++ [i st]
                   = consecutive (i st + 1 - Z.of_nat (S n)) (S n)).
    { rewrite consecutive_snoc.
      replace (i st + 1 - Z.of_nat (S n))%Z with (i st - Z.of_nat n)%Z by lia.
      rewrite <- Hit. do 2 f_equal. lia. }
    rewrite length_app, Hlen in H. fold n in H. cbn [length] in H.
    replace (n + 1)%nat with (S n) in H by lia.
    destruct (Nat.ltb_spec max_points (S n)) as [Hgt | Hle];
      injection H as <- _; unfold window_ok;
      cbn [rms_history iterations i].
    + assert (Hn : n = max_points) by lia.
      unfold last_points.
      rewrite !length_app, Hlen. fold n. cbn [length].
      replace (n + 1 - max_points)%nat with 1%nat by lia.
      rewrite Hnew, consecutive_cons.
      destruct (rms_history st ++ [measure_rms filtered]) as [| r0 h] eqn:Hh.
      { destruct (rms_history st); discriminate. }
      assert (Hhl : length (r0 :: h) = S n).
      { rewrite <- Hh, length_app, Hlen. fold n. simpl. lia. }
      cbn [skipn]. cbn [length] in Hhl.
      rewrite consecutive_length.
      repeat split; try lia.
      f_equal; lia.
    + rewrite !length_app, Hlen. fold n. cbn [length].
      replace (n + 1)%nat with (S n) by lia.
      repeat split; try lia.
      rewrite Hnew. f_equal; lia.
Qed.

Lemma measure_rms_one : measure_rms [1] = 1.
Proof.
  rewrite measure_rms_nonempty by discriminate.
  unfold sum_sq. simpl.
  replace ((1 * 1 + 0) / 1) with 1 by lra. apply sqrt_1.
Qed.

Lemma test_mode_first_iteration :
  test_mode_body passthrough default_config test_mode_start (Some [1])
  = Test_next {| rms_history := [measure_rms [1]]; iterations := [0%Z];
                 i := 1 |}
              (Some (measure_rms [1], ABOVE)).
Proof.
  unfold test_mode_body. cbn [length Nat.eqb].
  unfold bandpass_filter, butter.
  replace (butter_accepts (LOWCUT default_config) (HIGHCUT default_config)
             (SAMPLING_RATE default_config)) with true by reflexivity.
  cbn [passthrough sosfilt test_mode_start rms_history iterations i app
       length max_points Nat.ltb Nat.leb].
  destruct (Rgt_dec (measure_rms [1]) (NOISE_THRESHOLD_HIGH default_config))
    as [_ | Hn]; [reflexivity |].
  exfalso. apply Hn. rewrite measure_rms_one. simpl. lra.
Qed.

Lemma test_mode_window_witness :
  window_ok {| rms_history := [measure_rms [1]]; iterations := [0%Z];
               i := 1 |}.
Proof.
  apply (proj2 (test_mode_window passthrough default_config test_mode_start
                  (Some [1]))
           (proj1 (test_mode_window passthrough default_config
                     test_mode_start (Some [1])))
           _ (Some (measure_rms [1], ABOVE))).
  apply test_mode_first_iteration.
Defined.

(** X23: the status reported by [test_mode] agrees with what the control
    loop does with the same level: ABOVE when it lowers the gain by one
    step, BELOW when it raises it by one step, OK when it leaves it. *)
Theorem test_mode_status_agrees
    (scipy : scipy_signal) (cfg : config) (st st' : test_state)
    (audio : option (list R)) (rms : R) (s : status) :
  test_mode_body scipy cfg st audio = Test_next st' (Some (rms, s)) ->
  forall current_gain,
    gain_request cfg rms current_gain
    = match s with
      | ABOVE => Some (current_gain - IZR (GAIN_STEP_DB cfg))
      | BELOW => Some (current_gain + IZR (GAIN_STEP_DB cfg))
      | OK => None
      end.
Proof.
  intros H g. unfold test_mode_body in H.
  destruct audio as [a |]; [| discriminate].
  destruct (length a =? 0)%nat; [discriminate |].
  destruct (bandpass_filter _ _ _ _ _ _) as [filtered |]; [| discriminate].
  destruct (if (max_points <? _)%nat then _ else _) as [h it].
  injection H as _ <- <-.
  unfold gain_request.
  destruct (Rgt_dec (measure_rms filtered) (NOISE_THRESHOLD_HIGH cfg));
    [reflexivity |].
  destruct (Rlt_dec (measure_rms filtered) (NOISE_THRESHOLD_LOW cfg));
    reflexivity.
Qed.

Lemma test_mode_status_agrees_witness :
  gain_request default_config (measure_rms [1]) 34
  = Some (34 - IZR (GAIN_STEP_DB default_config)).
Proof.
  apply (test_mode_status_agrees passthrough default_config test_mode_start
           {| rms_history := [measure_rms [1]]; iterations := [0%Z];
              i := 1 |}
           (Some [1]) (measure_rms [1]) ABOVE).
  apply test_mode_first_iteration.
Defined.

(** ** Writing the values into the script *)

Lemma prefix_append (a b : string) : String.prefix a (a ++ b) = true.
Proof.
  induction a as [| c a IH]; simpl.
  - destruct b; reflexivity.
  - destruct (ascii_dec c c) as [_ | Hn]; [exact IH | contradiction].
Qed.

(** X24: a [sed] command of [persist_calibration_to_script] rewrites
    exactly the lines that start with the name of the constant, one space
    and an equals sign, and running it again changes nothing more.  On the
    constants as the script spells them, the three written with one space
    before the equals sign are replaced, while [NOISE_THRESHOLD_LOW], which
    is followed by two spaces, is left as it was. *)
Theorem sed_rewrites_matching_lines
    (high low min_gain max_gain : string) :
  (forall var val line,
      (String.prefix (var ++ " = ") line = true ->
       sed_line var val line = (var ++ " = " ++ val)%string) /\
      (String.prefix (var ++ " = ") line = false ->
       sed_line var val line = line) /\
      sed_line var val (sed_line var val line) = sed_line var val line) /\
  sed_script high low min_gain max_gain script_constants
  = [ "MIN_GAIN_DB = " ++ min_gain;
      "MAX_GAIN_DB = " ++ max_gain;
      "GAIN_STEP_DB = 3";
      "";
      "# RMS thresholds";
      "NOISE_THRESHOLD_HIGH = " ++ high;
      "NOISE_THRESHOLD_LOW  = 0.001" ]%string.
Proof.
  split.
  - intros var val line. unfold sed_line.
    split; [| split].
    + now intros ->.
    + now intros ->.
    + destruct (String.prefix (var ++ " = ") line) eqn:Hp.
      * replace (var ++ " = " ++ val)%string
          with ((var ++ " = ") ++ val)%string by apply append_assoc.
        now rewrite prefix_append.
      * now rewrite Hp.
  - reflexivity.
Qed.

Lemma sed_rewrites_matching_lines_witness :
  sed_line "MIN_GAIN_DB" "31" "MIN_GAIN_DB = 30" = "MIN_GAIN_DB = 31"%string.
Proof.
  apply (proj1 (proj1 (sed_rewrites_matching_lines "" "" "" "")
                  "MIN_GAIN_DB" "31" "MIN_GAIN_DB = 30")%string).
  reflexivity.
Defined.
